(** * FinHanced: authentication, the request guard and the expense routes

    A shallow embedding of the server side of the FinHanced expense tracker:
    - [localAuth.ts]: registration, login, [GET /api/auth/user] and the
      [isAuthenticated] middleware;
    - [routes.ts]: the expense routes, in the order in which they are
      registered on the Express application;
    - [index.ts]: [setupAuth] runs before [registerRoutes], so the routes of
      [localAuth.ts] come first in the application's route table.

    [localAuth.ts] declares [setupAuth] twice; the second declaration, the
    one that registers routes, is the one embedded.  [routes.ts] registers
    several method and path pairs twice; the route table keeps both
    registrations, in source order.

    Third-party libraries (jsonwebtoken, bcryptjs, the random UUID source,
    the AI service, the zod insert schema) are collaborators gathered in the
    record [Env].  The data access object [storage] is the interface
    [IStorage]; the handlers are written against the interface.  The module
    [Token] gives a token service as the specification describes it, which
    can stand for the token library.

    The database is the pair of tables ["users"] and ["expenses"] held in
    the world a request runs in; a query on ["users"] returns and does not
    fail.  A path is its list of segments, matched exactly. *)

From Stdlib Require Import String Ascii List ZArith Bool Lia.
From Stdlib Require Import Decimal DecimalString DecimalPos DecimalZ.
Import ListNotations.
Open Scope string_scope.
Open Scope Z_scope.

Set Implicit Arguments.

(** ** JavaScript values and objects *)

#[local] Set Warnings "-register-all".

Inductive JsVal : Type :=
| JUndefined
| JNull
| JBool (b : bool)
| JNum (n : Z)
| JStr (s : string)
| JDate (t : Z)
| JArr (items : list JsVal)
| JObj (fields : list (string * JsVal)).

Definition JsObj := list (string * JsVal).

(** [o.k]: the value of the first binding of [k], [undefined] without one. *)
Fixpoint obj_get (o : JsObj) (k : string) : JsVal :=
  match o with
  | [] => JUndefined
  | (k', v) :: rest => if String.eqb k' k then v else obj_get rest k
  end.

(** [o.k = v], also the override step of an object spread. *)
Fixpoint obj_set (o : JsObj) (k : string) (v : JsVal) : JsObj :=
  match o with
  | [] => [(k, v)]
  | (k', v') :: rest =>
      if String.eqb k' k then (k, v) :: rest else (k', v') :: obj_set rest k v
  end.

(** JavaScript truthiness, as used by [!x] and [if (x)]. *)
Definition truthy (v : JsVal) : bool :=
  match v with
  | JUndefined | JNull => false
  | JBool b => b
  | JNum n => negb (n =? 0)
  | JStr s => negb (String.eqb s EmptyString)
  | JDate _ | JArr _ | JObj _ => true
  end.

Definition opt_str (o : option string) : JsVal :=
  match o with Some s => JStr s | None => JNull end.

Definition message (s : string) : JsVal := JObj [("message", JStr s)].

(** [s.substring(n)]: the suffix of [s] from offset [n]. *)
Definition substring_from (n : nat) (s : string) : string :=
  substring n (String.length s - n) s.

(** [s.split(sep)] for a one-character separator. *)
Fixpoint split_on (sep : ascii) (s : string) : list string :=
  match s with
  | EmptyString => [EmptyString]
  | String c rest =>
      if Ascii.eqb c sep then EmptyString :: split_on sep rest
      else match split_on sep rest with
           | [] => [String c EmptyString]
           | hd :: tl => String c hd :: tl
           end
  end.

Definition contains (needle hay : string) : bool :=
  match index 0 needle hay with Some _ => true | None => false end.

(** ** Tables (migration [0000_dusty_paibok.sql]) *)

(** A row of ["users"]; a nullable column is an [option]. *)
Record UserRow : Type := mkUser {
  u_id : string;
  u_email : option string;
  u_password : option string;
  u_firstName : option string;
  u_lastName : option string;
  u_profileImageUrl : option string;
  u_createdAt : Z;
  u_updatedAt : Z;
  u_language : string;
  u_currency : string;
  u_timezone : string;
  u_theme : string;
  u_onboardingCompleted : bool
}.

(** The object Drizzle returns for a ["users"] row: one property per
    column, camel-cased.  The table has no [user_id] column. *)
Definition user_to_obj (u : UserRow) : JsObj :=
  [ ("id", JStr (u_id u));
    ("email", opt_str (u_email u));
    ("password", opt_str (u_password u));
    ("firstName", opt_str (u_firstName u));
    ("lastName", opt_str (u_lastName u));
    ("profileImageUrl", opt_str (u_profileImageUrl u));
    ("createdAt", JDate (u_createdAt u));
    ("updatedAt", JDate (u_updatedAt u));
    ("language", JStr (u_language u));
    ("currency", JStr (u_currency u));
    ("timezone", JStr (u_timezone u));
    ("theme", JStr (u_theme u));
    ("onboardingCompleted", JBool (u_onboardingCompleted u)) ].

(** A row of ["expenses"]. *)
Record Expense : Type := mkExpense {
  e_id : string;
  e_userId : string;
  e_amount : JsVal;
  e_type : string;
  e_description : string;
  e_category : string;
  e_date : Z;
  e_location : option string;
  e_latitude : JsVal;
  e_longitude : JsVal;
  e_mood : option string;
  e_rating : JsVal;
  e_receiptUrl : option string;
  e_tags : option (list string);
  e_createdAt : Z;
  e_updatedAt : Z
}.

(** ** The world a request runs in *)

Inductive Event : Type :=
| EvHandler (name : string)                       (* a middleware or handler was entered *)
| EvAnalyze (description amount location : JsVal) (* aiService.analyzeExpense was called *).

Record World : Type := mkWorld {
  users : list UserRow;
  expenses : list Expense;
  clock : Z;          (* Date.now() *)
  seed : nat;         (* position in the stream of random UUIDs *)
  log : list Event
}.

Definition set_users (us : list UserRow) (w : World) : World :=
  mkWorld us (expenses w) (clock w) (seed w) (log w).
Definition set_expenses (es : list Expense) (w : World) : World :=
  mkWorld (users w) es (clock w) (seed w) (log w).
Definition set_seed (n : nat) (w : World) : World :=
  mkWorld (users w) (expenses w) (clock w) n (log w).
Definition add_event (e : Event) (w : World) : World :=
  mkWorld (users w) (expenses w) (clock w) (seed w) (log w ++ [e]).

(** ** Computations: state threaded through, exceptions as [Throw] *)

Inductive Res (A : Type) : Type :=
| Ok (a : A)
| Throw (err : string).
Arguments Throw {A} err.

Definition M (A : Type) : Type := World -> Res A * World.

Definition ret {A} (a : A) : M A := fun w => (Ok a, w).
Definition throw {A} (err : string) : M A := fun w => (Throw err, w).
Definition bind {A B} (m : M A) (k : A -> M B) : M B :=
  fun w => match m w with
           | (Ok a, w') => k a w'
           | (Throw err, w') => (Throw err, w')
           end.
(** [try { body } catch (error) { handler }]; what [body] wrote before it
    threw stays written. *)
Definition try_catch {A} (body : M A) (handler : string -> M A) : M A :=
  fun w => match body w with
           | (Ok a, w') => (Ok a, w')
           | (Throw err, w') => handler err w'
           end.
Definition lift {A} (r : Res A) : M A := fun w => (r, w).
Definition gets {A} (f : World -> A) : M A := fun w => (Ok (f w), w).
Definition modify (f : World -> World) : M unit := fun w => (Ok tt, f w).

Declare Scope m_scope.
Delimit Scope m_scope with M.
Notation "x <- m ;; k" := (bind m (fun x => k))
  (at level 61, m at next level, right associativity) : m_scope.
Notation "m ;;; k" := (bind m (fun _ => k))
  (at level 61, right associativity) : m_scope.

Open Scope m_scope.

(** ** Requests and responses *)

Inductive Method : Type := GET | POST | PUT | PATCH | DELETE.

Definition method_eqb (a b : Method) : bool :=
  match a, b with
  | GET, GET | POST, POST | PUT, PUT | PATCH, PATCH | DELETE, DELETE => true
  | _, _ => false
  end.

(** The Express request object, with the properties the server reads or
    writes: [req.headers.authorization], [req.query], [req.body],
    [req.params], [req.file] (set by multer) and the two properties
    [isAuthenticated] adds, [req.userId] and [req.user]. *)
Record Request : Type := mkRequest {
  req_method : Method;
  req_path : list string;
  req_authorization : option string;
  req_query : JsObj;
  req_body : JsObj;
  req_params : JsObj;
  req_file : option string;
  req_userId : JsVal;
  req_user : option JsObj
}.

Definition set_params (ps : JsObj) (r : Request) : Request :=
  mkRequest (req_method r) (req_path r) (req_authorization r) (req_query r)
            (req_body r) ps (req_file r) (req_userId r) (req_user r).

(** [(req as any).userId = id; (req as any).user = row]. *)
Definition attach_identity (id : JsVal) (row : JsObj) (r : Request) : Request :=
  mkRequest (req_method r) (req_path r) (req_authorization r) (req_query r)
            (req_body r) (req_params r) (req_file r) id (Some row).

Inductive Body : Type :=
| BJson (v : JsVal)
| BExpense (e : option Expense)       (* res.json(expense), possibly undefined *)
| BExpenses (l : list Expense).

Record Response : Type := mkResponse {
  status : Z;
  body : Body
}.

(** [res.status(code).json(v)] and [res.json(v)]. *)
Definition respond (code : Z) (v : JsVal) : Response := mkResponse code (BJson v).
Definition json (b : Body) : Response := mkResponse 200 b.

(** What a middleware does with a request: answer it, or call [next()]. *)
Inductive Step : Type :=
| Send (r : Response)
| Next (req : Request).

Definition Handler : Type := Request -> M Step.

(** ** Collaborators *)

Inductive JwtResult : Type :=
| JwtOk (payload : JsObj)
| JsonWebTokenError (reason : string)   (* malformed token, invalid signature *)
| TokenExpiredError.

Record Env : Type := mkEnv {
  JWT_SECRET : string;
  (* jwt.sign(payload, secret, { expiresIn }) at a given time *)
  jwt_sign : JsObj -> string -> string -> Z -> string;
  (* jwt.verify(token, secret) at a given time *)
  jwt_verify : string -> string -> Z -> JwtResult;
  (* bcrypt.hash(password, rounds) with the salt drawn from a seed *)
  bcrypt_hash : string -> Z -> nat -> string;
  bcrypt_compare : string -> string -> bool;
  randomUUID : nat -> string;
  parseFloat : JsVal -> JsVal;
  toNumber : JsVal -> JsVal;             (* Number(x) *)
  newDate : JsVal -> JsVal;              (* new Date(x) *)
  (* insertExpenseSchema.parse, of @shared/schema: the validated object, or a ZodError *)
  insertExpenseSchema_parse : JsObj -> Res JsObj;
  (* aiService.analyzeExpense(description, amount, location) *)
  analyzeExpense : JsVal -> JsVal -> JsVal -> Res JsObj
}.

(** The data access object [storage] of [./storage], as the routes use it. *)
Record IStorage : Type := mkStorage {
  getUser : JsVal -> M JsVal;
  createExpense : JsObj -> M Expense;
  getExpenses : JsVal -> option JsObj -> M (list Expense);
  getExpenseById : JsVal -> JsVal -> M (option Expense);
  updateExpense : JsVal -> JsVal -> JsObj -> M (option Expense);
  deleteExpense : JsVal -> JsVal -> M unit
}.

(** ** Queries on ["users"] *)

(** [eq(users.id, v)] and [eq(users.email, v)]: a text column compared
    with a string parameter.  A parameter of another type reaches the
    database in the text form the driver gives it, which is not modelled:
    here it equals no row. *)
Definition users_id_eq (v : JsVal) (u : UserRow) : bool :=
  match v with JStr s => String.eqb (u_id u) s | _ => false end.

Definition users_email_eq (v : JsVal) (u : UserRow) : bool :=
  match v, u_email u with
  | JStr s, Some e => String.eqb e s
  | _, _ => false
  end.

(** [db.select().from(users).where(cond).limit(n)]. *)
Definition select_users (cond : UserRow -> bool) (n : nat) : M (list UserRow) :=
  gets (fun w => firstn n (filter cond (users w))).

(** A text parameter of an insert: a string, or null.  A value of another
    type is stored in the text form the driver gives it, which is not
    modelled: here the insert fails. *)
Definition text_param (v : JsVal) : Res (option string) :=
  match v with
  | JStr s => Ok (Some s)
  | JNull | JUndefined => Ok None
  | _ => Throw "invalid input for a text column"
  end.

Definition same_email (e : option string) (u : UserRow) : bool :=
  match e, u_email u with
  | Some a, Some b => String.eqb a b
  | _, _ => false
  end.

(** [db.insert(users).values(row).returning()]: the primary key and the
    unique constraint on [email] are checked; the stored row is returned. *)
Definition insert_user (row : UserRow) : M (list UserRow) :=
  us <- gets users ;;
  if existsb (fun u => String.eqb (u_id u) (u_id row)) us then
    throw "duplicate key value violates unique constraint users_pkey"
  else if existsb (same_email (u_email row)) us then
    throw "duplicate key value violates unique constraint users_email_unique"
  else
    modify (set_users (us ++ [row])) ;;; ret [row].

Definition fresh : M nat :=
  n <- gets seed ;; modify (set_seed (S n)) ;;; ret n.

Definition now : M Z := gets clock.

(** The projection of a user that registration, login and
    [GET /api/auth/user] answer with. *)
Definition public_user (u : UserRow) : JsObj :=
  [ ("id", JStr (u_id u));
    ("email", opt_str (u_email u));
    ("firstName", opt_str (u_firstName u));
    ("lastName", opt_str (u_lastName u));
    ("profileImageUrl", opt_str (u_profileImageUrl u)) ].

Definition as_string (v : JsVal) : Res string :=
  match v with
  | JStr s => Ok s
  | _ => Throw "Illegal arguments"
  end.

(** ** [localAuth.ts] *)

Section LocalAuth.

Variable env : Env.

(** [jwt.verify(token, JWT_SECRET)]: the payload, or an exception. *)
Definition verify (token : string) : M JsObj :=
  t <- now ;;
  match jwt_verify env token (JWT_SECRET env) t with
  | JwtOk payload => ret payload
  | JsonWebTokenError reason => throw reason
  | TokenExpiredError => throw "jwt expired"
  end.

(** [jwt.sign({ userId: user.id }, JWT_SECRET, { expiresIn: '7d' })]. *)
Definition issue_token (u : UserRow) : M string :=
  t <- now ;;
  ret (jwt_sign env [("userId", JStr (u_id u))] (JWT_SECRET env) "7d" t).

(** [app.post('/api/register', ...)]. *)
Definition register : Handler := fun req =>
  try_catch
    (let email := obj_get (req_body req) "email" in
     let password := obj_get (req_body req) "password" in
     let firstName := obj_get (req_body req) "firstName" in
     let lastName := obj_get (req_body req) "lastName" in
     if negb (truthy email) || negb (truthy password)
        || negb (truthy firstName) || negb (truthy lastName)
     then ret (Send (respond 400 (message "All fields are required")))
     else
       existingUser <- select_users (users_email_eq email) 1 ;;
       if (0 <? length existingUser)%nat
       then ret (Send (respond 400 (message "User already exists")))
       else
         pw <- lift (as_string password) ;;
         salt <- fresh ;;
         let hashedPassword := bcrypt_hash env pw 10 salt in
         n <- fresh ;;
         t <- now ;;
         em <- lift (text_param email) ;;
         fn <- lift (text_param firstName) ;;
         ln <- lift (text_param lastName) ;;
         (* the inserted values; [preferences: {}] has no column in the
            table, the remaining columns take their defaults *)
         newUser <- insert_user
           (mkUser (randomUUID env n) em (Some hashedPassword) fn ln None
                   t t "en" "USD" "UTC" "light" false) ;;
         match newUser with
         | [] => throw "TypeError: user is undefined"
         | user :: _ =>
             token <- issue_token user ;;
             ret (Send (json (BJson (JObj
               [ ("message", JStr "User created successfully");
                 ("token", JStr token);
                 ("user", JObj (public_user user)) ]))))
         end)
    (fun _ => ret (Send (respond 500 (message "Internal server error")))).

(** [app.post('/api/login', ...)]. *)
Definition login : Handler := fun req =>
  try_catch
    (let email := obj_get (req_body req) "email" in
     let password := obj_get (req_body req) "password" in
     if negb (truthy email) || negb (truthy password)
     then ret (Send (respond 400 (message "Email and password are required")))
     else
       userResult <- select_users (users_email_eq email) 1 ;;
       match userResult with
       | [] => ret (Send (respond 401 (message "Invalid credentials")))
       | user :: _ =>
           pw <- lift (as_string password) ;;
           hash <- lift (as_string (opt_str (u_password user))) ;;
           if negb (bcrypt_compare env pw hash)
           then ret (Send (respond 401 (message "Invalid credentials")))
           else
             token <- issue_token user ;;
             ret (Send (json (BJson (JObj
               [ ("message", JStr "Login successful");
                 ("token", JStr token);
                 ("user", JObj (public_user user)) ]))))
       end)
    (fun _ => ret (Send (respond 500 (message "Internal server error")))).

(** The handler of [app.get('/api/auth/user', isAuthenticated, ...)]. *)
Definition auth_user : Handler := fun req =>
  try_catch
    (let userId := req_userId req in
     userResult <- select_users (users_id_eq userId) 1 ;;
     match userResult with
     | [] => ret (Send (respond 404 (message "User not found")))
     | user :: _ => ret (Send (json (BJson (JObj (public_user user)))))
     end)
    (fun _ => ret (Send (respond 500 (message "Internal server error")))).

(** [app.post('/api/logout', ...)]. *)
Definition logout : Handler := fun _ =>
  ret (Send (json (BJson (message "Logged out successfully")))).

(** The middleware [isAuthenticated]. *)
Definition isAuthenticated : Handler := fun req =>
  try_catch
    (match req_authorization req with
     | None => ret (Send (respond 401 (message "No token provided")))
     | Some authHeader =>
         if negb (prefix "Bearer " authHeader)
         then ret (Send (respond 401 (message "No token provided")))
         else
           let token := substring_from 7 authHeader in
           decoded <- verify token ;;
           userResult <- select_users (users_id_eq (obj_get decoded "userId")) 1 ;;
           match userResult with
           | [] => ret (Send (respond 401 (message "User not found")))
           | row :: _ =>
               ret (Next (attach_identity (obj_get decoded "userId")
                                          (user_to_obj row) req))
           end
     end)
    (fun _ => ret (Send (respond 401 (message "Invalid token")))).

End LocalAuth.

(** ** Express routing *)

Inductive Seg : Type :=
| Lit (s : string)       (* a literal path segment *)
| Param (name : string)  (* [:name] *).

(** A pattern against the segments of a path.  Literal segments are
    compared exactly; Express compares them without regard to case and
    accepts a trailing slash. *)
Fixpoint match_path (pattern : list Seg) (path : list string) : option JsObj :=
  match pattern, path with
  | [], [] => Some []
  | Lit s :: pattern', x :: path' =>
      if String.eqb s x then match_path pattern' path' else None
  | Param name :: pattern', x :: path' =>
      match match_path pattern' path' with
      | Some ps => Some ((name, JStr x) :: ps)
      | None => None
      end
  | _, _ => None
  end.

Record Route : Type := mkRoute {
  rt_method : Method;
  rt_pattern : list Seg;
  rt_chain : list (string * Handler)
}.

(** The handlers of one route run in order; each is entered, and either
    answers or calls [next()].  An exception that escapes a handler reaches
    the error middleware of [index.ts]. *)
Fixpoint run_chain (chain : list (string * Handler)) (req : Request) (w : World)
  : (Response + Request) * World :=
  match chain with
  | [] => (inr req, w)
  | (name, h) :: rest =>
      match h req (add_event (EvHandler name) w) with
      | (Ok (Send r), w') => (inl r, w')
      | (Ok (Next req'), w') => run_chain rest req' w'
      | (Throw err, w') => (inl (respond 500 (message err)), w')
      end
  end.

(** Routes are tried in registration order; the first whose chain answers
    ends the request.  A request no route answers is shown with Express's
    404; [index.ts] installs the client application after the routes, which
    answers such a request in its place. *)
Fixpoint dispatch (routes : list Route) (req : Request) (w : World)
  : Response * World :=
  match routes with
  | [] => (mkResponse 404 (BJson JUndefined), w)
  | rt :: rest =>
      if method_eqb (rt_method rt) (req_method req) then
        match match_path (rt_pattern rt) (req_path req) with
        | Some ps =>
            match run_chain (rt_chain rt) (set_params ps req) w with
            | (inl r, w') => (r, w')
            | (inr req', w') => dispatch rest req' w'
            end
        | None => dispatch rest req w
        end
      else dispatch rest req w
  end.

(** [upload.single(field)]: multer stores the uploaded file, if any, and
    calls [next()]; [req_file] is the stored file's name.  A file that the
    filter or the size limit of multer refuses ends the request through
    the error middleware; a request here carries the file multer stored. *)
Definition upload_single (field : string) : Handler := fun req => ret (Next req).

(** ** [routes.ts] *)

Section Routes.

Variable env : Env.
Variable storage : IStorage.

(** [req.user.userId]. *)
Definition user_userId (req : Request) : M JsVal :=
  match req_user req with
  | Some u => ret (obj_get u "userId")
  | None => throw "TypeError: Cannot read properties of undefined"
  end.

Definition receipt_url (req : Request) (otherwise : JsVal) : JsVal :=
  match req_file req with
  | Some filename => JStr ("/uploads/" ++ filename)
  | None => otherwise
  end.

(** [aiService.analyzeExpense(description, amount, location)]. *)
Definition analyze (description amount location : JsVal) : M JsObj :=
  fun w => (analyzeExpense env description amount location,
            add_event (EvAnalyze description amount location) w).

(** First [app.post('/api/expenses', isAuthenticated, upload.single('receipt'), ...)]. *)
Definition post_expense_upload : Handler := fun req =>
  try_catch
    (userId <- user_userId req ;;
     let expenseData :=
       obj_set (obj_set (obj_set (req_body req) "userId" userId)
                        "amount" (parseFloat env (obj_get (req_body req) "amount")))
               "receiptUrl" (receipt_url req JNull) in
     validatedData <- lift (insertExpenseSchema_parse env expenseData) ;;
     expense <- createExpense storage validatedData ;;
     ret (Send (json (BExpense (Some expense)))))
    (fun _ => ret (Send (respond 500 (message "Failed to create expense")))).

(** First [app.get('/api/expenses', isAuthenticated, ...)]. *)
Definition get_expenses_plain : Handler := fun req =>
  try_catch
    (userId <- user_userId req ;;
     expenses <- getExpenses storage userId None ;;
     ret (Send (json (BExpenses expenses))))
    (fun _ => ret (Send (respond 500 (message "Failed to fetch expenses")))).

(** [app.put('/api/expenses/:id', isAuthenticated, upload.single('receipt'), ...)]. *)
Definition put_expense : Handler := fun req =>
  try_catch
    (userId <- user_userId req ;;
     let expenseId := obj_get (req_params req) "id" in
     let expenseData :=
       obj_set (obj_set (req_body req)
                        "amount" (parseFloat env (obj_get (req_body req) "amount")))
               "receiptUrl" (receipt_url req (obj_get (req_body req) "receiptUrl")) in
     expense <- updateExpense storage expenseId userId expenseData ;;
     ret (Send (json (BExpense expense))))
    (fun _ => ret (Send (respond 500 (message "Failed to update expense")))).

(** [app.delete('/api/expenses/:id', isAuthenticated, ...)], registered twice
    with the same body. *)
Definition delete_expense : Handler := fun req =>
  try_catch
    (userId <- user_userId req ;;
     let id := obj_get (req_params req) "id" in
     deleteExpense storage id userId ;;;
     ret (Send (json (BJson (message "Expense deleted successfully")))))
    (fun _ => ret (Send (respond 500 (message "Failed to delete expense")))).

(** [app.get('/api/auth/user', isAuthenticated, ...)] of [routes.ts]. *)
Definition get_auth_user : Handler := fun req =>
  try_catch
    (userId <- user_userId req ;;
     user <- getUser storage userId ;;
     ret (Send (json (BJson user))))
    (fun _ => ret (Send (respond 500 (message "Failed to fetch user")))).

(** Second [app.post('/api/expenses', isAuthenticated, ...)]: AI analysis
    for categorization if not provided. *)
Definition post_expense_ai : Handler := fun req =>
  try_catch
    (userId <- user_userId req ;;
     parsed <- lift (insertExpenseSchema_parse env
                       (obj_set (req_body req) "userId" userId)) ;;
     expenseData <-
       (if negb (truthy (obj_get parsed "category"))
           && truthy (obj_get parsed "description")
        then
          analysis <- analyze (obj_get parsed "description")
                              (toNumber env (obj_get parsed "amount"))
                              (obj_get parsed "location") ;;
          ret (obj_set (obj_set parsed "category" (obj_get analysis "suggestedCategory"))
                       "tags" (obj_get analysis "tags"))
        else ret parsed) ;;
     expense <- createExpense storage expenseData ;;
     ret (Send (json (BExpense (Some expense)))))
    (fun _ => ret (Send (respond 500 (message "Failed to create expense")))).

(** The conversions of the second [GET /api/expenses] handler:
    date strings to [Date] objects, [tags] split on commas. *)
Definition convert_date (k : string) (filters : JsObj) : JsObj :=
  if truthy (obj_get filters k)
  then obj_set filters k (newDate env (obj_get filters k))
  else filters.

Definition convert_tags (filters : JsObj) : M JsObj :=
  if truthy (obj_get filters "tags") then
    match obj_get filters "tags" with
    | JStr s => ret (obj_set filters "tags" (JArr (map JStr (split_on "," s))))
    | _ => throw "TypeError: filters.tags.split is not a function"
    end
  else ret filters.

(** Second [app.get('/api/expenses', isAuthenticated, ...)]. *)
Definition get_expenses_filtered : Handler := fun req =>
  try_catch
    (userId <- user_userId req ;;
     filters <- convert_tags (convert_date "endDate"
                               (convert_date "startDate" (req_query req))) ;;
     expenses <- getExpenses storage userId (Some filters) ;;
     ret (Send (json (BExpenses expenses))))
    (fun _ => ret (Send (respond 500 (message "Failed to fetch expenses")))).

(** [app.get('/api/expenses/:id', isAuthenticated, ...)]. *)
Definition get_expense : Handler := fun req =>
  try_catch
    (userId <- user_userId req ;;
     let id := obj_get (req_params req) "id" in
     expense <- getExpenseById storage id userId ;;
     match expense with
     | None => ret (Send (respond 404 (message "Expense not found")))
     | Some e => ret (Send (json (BExpense (Some e))))
     end)
    (fun _ => ret (Send (respond 500 (message "Failed to fetch expense")))).

(** [app.patch('/api/expenses/:id', isAuthenticated, ...)]. *)
Definition patch_expense : Handler := fun req =>
  try_catch
    (userId <- user_userId req ;;
     let id := obj_get (req_params req) "id" in
     let updates := req_body req in
     expense <- updateExpense storage id userId updates ;;
     ret (Send (json (BExpense expense))))
    (fun _ => ret (Send (respond 500 (message "Failed to update expense")))).

Definition guard : string * Handler := ("isAuthenticated", isAuthenticated env).

(** The routes [setupAuth] registers. *)
Definition setupAuth : list Route :=
  [ mkRoute POST [Lit "api"; Lit "register"] [("register", register env)];
    mkRoute POST [Lit "api"; Lit "login"] [("login", login env)];
    mkRoute GET [Lit "api"; Lit "auth"; Lit "user"]
            [guard; ("auth_user", auth_user)];
    mkRoute POST [Lit "api"; Lit "logout"] [("logout", logout)] ].

(** The routes [registerRoutes] registers on the paths of [setupAuth] and
    on [/api/expenses], in source order.  The routes of other resources
    (budgets, goals, categories, notifications, uploads, dashboard, AI,
    currencies, user data) and [PATCH /api/auth/user] match none of these
    method and path pairs. *)
Definition registerRoutes : list Route :=
  [ mkRoute POST [Lit "api"; Lit "expenses"]
            [guard; ("upload.single", upload_single "receipt");
             ("post_expense_upload", post_expense_upload)];
    mkRoute GET [Lit "api"; Lit "expenses"]
            [guard; ("get_expenses_plain", get_expenses_plain)];
    mkRoute PUT [Lit "api"; Lit "expenses"; Param "id"]
            [guard; ("upload.single", upload_single "receipt");
             ("put_expense", put_expense)];
    mkRoute DELETE [Lit "api"; Lit "expenses"; Param "id"]
            [guard; ("delete_expense", delete_expense)];
    mkRoute GET [Lit "api"; Lit "auth"; Lit "user"]
            [guard; ("get_auth_user", get_auth_user)];
    mkRoute POST [Lit "api"; Lit "expenses"]
            [guard; ("post_expense_ai", post_expense_ai)];
    mkRoute GET [Lit "api"; Lit "expenses"]
            [guard; ("get_expenses_filtered", get_expenses_filtered)];
    mkRoute GET [Lit "api"; Lit "expenses"; Param "id"]
            [guard; ("get_expense", get_expense)];
    mkRoute PATCH [Lit "api"; Lit "expenses"; Param "id"]
            [guard; ("patch_expense", patch_expense)];
    mkRoute DELETE [Lit "api"; Lit "expenses"; Param "id"]
            [guard; ("delete_expense", delete_expense)] ].

(** [index.ts]: [await setupAuth(app)], then [registerRoutes(app)]. *)
Definition app : list Route := setupAuth ++ registerRoutes.

(** The answer of the routes to a request that reaches them, with its
    body parsed, and the world after it.  What [index.ts] installs before
    the routes (the body parsers, which hand a body they cannot parse to
    the error middleware) and after them is not part of it. *)
Definition serve (req : Request) (w : World) : Response * World :=
  dispatch app req w.

End Routes.

(** ** The resource access layer *)

(** The sources import [storage] from [./storage] and do not contain it.
    The definitions of this module follow the specification of the
    resource access layer instead; each says so. *)
Module Storage.

(** The owning-user constraint [expenses.user_id = userId]; [user_id] is a
    non-null text column, so no row matches [undefined]. *)
Definition owned_by (userId : JsVal) (e : Expense) : bool :=
  match userId with JStr s => String.eqb (e_userId e) s | _ => false end.

Definition has_id (id : JsVal) (e : Expense) : bool :=
  match id with JStr s => String.eqb (e_id e) s | _ => false end.

Definition tags_of (e : Expense) : list string :=
  match e_tags e with Some ts => ts | None => [] end.

Definition is_tag (t : string) (v : JsVal) : bool :=
  match v with JStr s => String.eqb s t | _ => false end.

(** One recognised filter option each; an absent option is [undefined]. *)
Definition category_ok (f : JsObj) (e : Expense) : bool :=
  match obj_get f "category" with
  | JUndefined => true
  | JStr c => String.eqb (e_category e) c
  | _ => false
  end.

Definition startDate_ok (f : JsObj) (e : Expense) : bool :=
  match obj_get f "startDate" with
  | JUndefined => true
  | JDate d => d <=? e_date e
  | _ => false
  end.

Definition endDate_ok (f : JsObj) (e : Expense) : bool :=
  match obj_get f "endDate" with
  | JUndefined => true
  | JDate d => e_date e <=? d
  | _ => false
  end.

Definition tags_ok (f : JsObj) (e : Expense) : bool :=
  match obj_get f "tags" with
  | JUndefined => true
  | JArr given => existsb (fun t => existsb (is_tag t) given) (tags_of e)
  | _ => false
  end.

Definition search_ok (f : JsObj) (e : Expense) : bool :=
  match obj_get f "search" with
  | JUndefined => true
  | JStr s => contains s (e_description e)
  | _ => false
  end.

Definition matches (filters : option JsObj) (e : Expense) : bool :=
  match filters with
  | None => true
  | Some f =>
      category_ok f e && startDate_ok f e && endDate_ok f e
      && tags_ok f e && search_ok f e
  end.

(** Modelled from the spec: [storage.getExpenses], missing from the
    sources.  The list operation takes the user id and an optional filter
    object; the owning-user equality is part of every query, the filters
    are conjoined and an absent one imposes no constraint. *)
Definition spec_getExpenses (userId : JsVal) (filters : option JsObj)
  : M (list Expense) :=
  gets (fun w => filter (fun e => owned_by userId e && matches filters e)
                        (expenses w)).

(** Modelled from the spec: [storage.getExpenseById], missing from the
    sources; the lookup is scoped to the owning user. *)
Definition spec_getExpenseById (id userId : JsVal) : M (option Expense) :=
  gets (fun w => find (fun e => has_id id e && owned_by userId e) (expenses w)).

Definition upd_str (o : JsObj) (k : string) (old : string) : string :=
  match obj_get o k with JStr s => s | _ => old end.

Definition upd_opt (o : JsObj) (k : string) (old : option string) : option string :=
  match obj_get o k with JStr s => Some s | JNull => None | _ => old end.

Definition upd_val (o : JsObj) (k : string) (old : JsVal) : JsVal :=
  match obj_get o k with JUndefined => old | v => v end.

Definition strings_of (items : list JsVal) : list string :=
  flat_map (fun v => match v with JStr s => [s] | _ => [] end) items.

Definition upd_tags (o : JsObj) (old : option (list string)) : option (list string) :=
  match obj_get o "tags" with
  | JArr items => Some (strings_of items)
  | JNull => None
  | _ => old
  end.

Definition upd_date (o : JsObj) (k : string) (old : Z) : Z :=
  match obj_get o k with JDate d => d | _ => old end.

(** The row after an update: the owner and the id stay. *)
Definition apply_updates (updates : JsObj) (t : Z) (e : Expense) : Expense :=
  mkExpense (e_id e) (e_userId e)
            (upd_val updates "amount" (e_amount e))
            (upd_str updates "type" (e_type e))
            (upd_str updates "description" (e_description e))
            (upd_str updates "category" (e_category e))
            (upd_date updates "date" (e_date e))
            (upd_opt updates "location" (e_location e))
            (upd_val updates "latitude" (e_latitude e))
            (upd_val updates "longitude" (e_longitude e))
            (upd_opt updates "mood" (e_mood e))
            (upd_val updates "rating" (e_rating e))
            (upd_opt updates "receiptUrl" (e_receiptUrl e))
            (upd_tags updates (e_tags e))
            (e_createdAt e) t.

(** Modelled from the spec: [storage.updateExpense], missing from the
    sources.  Ownership is re-checked at the data layer; on an id the user
    does not own the update fails with [NotFound] and alters no row. *)
Definition spec_updateExpense (id userId : JsVal) (updates : JsObj)
  : M (option Expense) :=
  es <- gets expenses ;;
  t <- now ;;
  match find (fun e => has_id id e && owned_by userId e) es with
  | None => throw "NotFound"
  | Some e =>
      let e' := apply_updates updates t e in
      modify (set_expenses
                (map (fun x => if has_id id x && owned_by userId x then e' else x) es)) ;;;
      ret (Some e')
  end.

(** Modelled from the spec: [storage.deleteExpense], missing from the
    sources, with the same ownership check as the update. *)
Definition spec_deleteExpense (id userId : JsVal) : M unit :=
  es <- gets expenses ;;
  if existsb (fun e => has_id id e && owned_by userId e) es
  then modify (set_expenses
                 (filter (fun e => negb (has_id id e && owned_by userId e)) es))
  else throw "NotFound".

(** Modelled from the spec: [storage.createExpense], missing from the
    sources.  An insert into ["expenses"]: the non-null columns must be
    given; the id is the column default, a random UUID. *)
Definition spec_createExpense (uuid : nat -> string) (data : JsObj) : M Expense :=
  match obj_get data "userId", obj_get data "type",
        obj_get data "description", obj_get data "category", obj_get data "date" with
  | JStr owner, JStr ty, JStr description, JStr category, JDate d =>
      match obj_get data "amount" with
      | JUndefined | JNull => throw "null value violates not-null constraint"
      | amount =>
          n <- fresh ;;
          t <- now ;;
          let e := mkExpense (uuid n) owner amount ty description category d
                             (upd_opt data "location" None)
                             (obj_get data "latitude") (obj_get data "longitude")
                             (upd_opt data "mood" None) (obj_get data "rating")
                             (upd_opt data "receiptUrl" None)
                             (upd_tags data None) t t in
          es <- gets expenses ;;
          modify (set_expenses (es ++ [e])) ;;; ret e
      end
  | _, _, _, _, _ => throw "null value violates not-null constraint"
  end.

(** Modelled from the spec: [storage.getUser], missing from the sources;
    the user record of that id, if any. *)
Definition spec_getUser (id : JsVal) : M JsVal :=
  gets (fun w => match find (users_id_eq id) (users w) with
                 | Some u => JObj (user_to_obj u)
                 | None => JUndefined
                 end).

(** Modelled from the spec: the data access object of [./storage], which
    the sources only import.  Every list operation carries the owning-user
    equality constraint unconditionally; the recognised filters are
    [category] (exact match), [startDate] and [endDate] (inclusive range on
    the expense's date), [tags] (the tag sets intersect) and [search]
    (substring of the description), all conjoined, an absent one imposing
    no constraint.  An update or delete re-checks ownership and, on an id
    the caller does not own, fails with [NotFound] and alters no row. *)
Definition specStorage (uuid : nat -> string) : IStorage :=
  mkStorage spec_getUser (spec_createExpense uuid) spec_getExpenses
            spec_getExpenseById spec_updateExpense spec_deleteExpense.

End Storage.

(** ** Vocabulary of the properties *)

(** The ways a request fails the checks of [isAuthenticated]: no
    [Authorization] header, a header that does not begin with ["Bearer "],
    a token the library rejects (malformed, bad signature), an expired
    token, or a verified token whose user id names no row of ["users"]. *)
Inductive AuthFailure (env : Env) (req : Request) (w : World) : Prop :=
| NoHeader :
    req_authorization req = None -> AuthFailure env req w
| NotBearer h :
    req_authorization req = Some h -> prefix "Bearer " h = false ->
    AuthFailure env req w
| BadToken h reason :
    req_authorization req = Some h -> prefix "Bearer " h = true ->
    jwt_verify env (substring_from 7 h) (JWT_SECRET env) (clock w)
      = JsonWebTokenError reason ->
    AuthFailure env req w
| Expired h :
    req_authorization req = Some h -> prefix "Bearer " h = true ->
    jwt_verify env (substring_from 7 h) (JWT_SECRET env) (clock w)
      = TokenExpiredError ->
    AuthFailure env req w
| NoSuchUser h payload :
    req_authorization req = Some h -> prefix "Bearer " h = true ->
    jwt_verify env (substring_from 7 h) (JWT_SECRET env) (clock w)
      = JwtOk payload ->
    filter (users_id_eq (obj_get payload "userId")) (users w) = [] ->
    AuthFailure env req w.

(** The world after a middleware or handler of that name was entered. *)
Definition entered (name : string) (w : World) : World :=
  add_event (EvHandler name) w.

Definition set_userId (v : JsVal) (r : Request) : Request :=
  mkRequest (req_method r) (req_path r) (req_authorization r) (req_query r)
            (req_body r) (req_params r) (req_file r) v (req_user r).

Definition set_query (q : JsObj) (r : Request) : Request :=
  mkRequest (req_method r) (req_path r) (req_authorization r) q
            (req_body r) (req_params r) (req_file r) (req_userId r) (req_user r).

(** The expenses a response lists. *)
Definition expenses_of (r : Response) : list Expense :=
  match body r with
  | BExpenses l => l
  | _ => []
  end.

(** The user id a handler of [routes.ts] works with: [req.user.userId]. *)
Definition identity_read (req : Request) : JsVal :=
  match req_user req with
  | Some u => obj_get u "userId"
  | None => JUndefined
  end.

(** The expenses a handler answers with, if it answers with a list. *)
Definition listed (x : Res Step * World) : list Expense :=
  match fst x with
  | Ok (Send r) => expenses_of r
  | _ => []
  end.

Definition is_analyze (e : Event) : bool :=
  match e with EvAnalyze _ _ _ => true | EvHandler _ => false end.

(** The handlers of [routes.ts] that act for the signed-in user. *)
Definition resource_handlers (env : Env) (storage : IStorage) : list Handler :=
  [ post_expense_upload env storage; get_expenses_plain storage;
    put_expense env storage; delete_expense storage; get_auth_user storage;
    post_expense_ai env storage; get_expenses_filtered env storage;
    get_expense storage; patch_expense storage ].

(** What a query string asks of an expense, in the words of the filter
    contract: [category] equal, the date within the inclusive range
    [startDate]..[endDate], a tag in common with the comma-separated [tags],
    [search] a substring of the description; a parameter that is not
    supplied asks nothing. *)
Definition satisfies_query (env : Env) (q : JsObj) (e : Expense) : Prop :=
  (forall c, obj_get q "category" = JStr c -> e_category e = c)
  /\ (forall s d, obj_get q "startDate" = JStr s ->
                  newDate env (JStr s) = JDate d -> d <= e_date e)
  /\ (forall s d, obj_get q "endDate" = JStr s ->
                  newDate env (JStr s) = JDate d -> e_date e <= d)
  /\ (forall s, obj_get q "tags" = JStr s ->
                exists t, In t (split_on "," s) /\ In t (Storage.tags_of e))
  /\ (forall s, obj_get q "search" = JStr s -> contains s (e_description e) = true).

(** ** The token service *)

(** The sources sign and verify tokens with the jsonwebtoken library, which
    is not among them.  The definitions of this module follow section 4.1
    of the specification, the Token Service: [issue] produces a signed
    token embedding the user id and an expiration, [verify] checks the
    signature and the expiration.  The signature is a keyed function
    [mac] whose results have [taglen] characters; a token is the signed
    text followed by its signature.  Times are those of [Date.now()], in
    milliseconds; a token counts seconds, as the library does. *)
Module Token.

(** Modelled from the spec: the seconds of a time. *)
Definition seconds (t : Z) : Z := t / 1000.

(** Modelled from the spec: "an expiration 7 days out".  [expiresIn] is
    given as the sources give it, ['7d']. *)
Definition lifetime (expiresIn : string) : Z :=
  if String.eqb expiresIn "7d" then 7 * 24 * 60 * 60 else 0.

(** Modelled from the spec: a number as decimal text. *)
Definition decimal (z : Z) : string := NilZero.string_of_int (Z.to_int z).

(** Modelled from the spec: the number a decimal text stands for. *)
Definition of_decimal (s : string) : option Z :=
  option_map Z.of_int (NilZero.int_of_string s).

(** Modelled from the spec: the text before and after the first [sep]. *)
Fixpoint cut (sep : ascii) (s : string) : option (string * string) :=
  match s with
  | EmptyString => None
  | String c rest =>
      if Ascii.eqb c sep then Some (EmptyString, rest)
      else match cut sep rest with
           | Some (a, b) => Some (String c a, b)
           | None => None
           end
  end.

(** Modelled from the spec: the first [n] characters and the rest. *)
Fixpoint split_at (n : nat) (s : string) : string * string :=
  match n, s with
  | S n', String c rest =>
      let (a, b) := split_at n' rest in (String c a, b)
  | _, _ => (EmptyString, s)
  end.

(** Modelled from the spec: what a token embeds, the expiration and the
    user id. *)
Definition claims (userId : string) (exp : Z) : string :=
  decimal exp ++ String "." userId.

Section Service.

Variable mac : string -> string -> string.
Variable taglen : nat.

(** Modelled from the spec: [issue(userId) -> token], as
    [jwt.sign({ userId }, secret, { expiresIn })] at time [t]. *)
Definition sign (payload : JsObj) (secret expiresIn : string) (t : Z) : string :=
  let userId := match obj_get payload "userId" with
                | JStr s => s
                | _ => EmptyString
                end in
  let body := claims userId (seconds t + lifetime expiresIn) in
  body ++ mac secret body.

(** Modelled from the spec: [verify(token) -> userId | Invalid], as
    [jwt.verify(token, secret)] at time [t]: the signature is checked,
    then the payload is read, then the expiration. *)
Definition verify (token secret : string) (t : Z) : JwtResult :=
  if (String.length token <? taglen)%nat then JsonWebTokenError "jwt malformed"
  else
    let (body, tag) := split_at (String.length token - taglen) token in
    if negb (String.eqb tag (mac secret body))
    then JsonWebTokenError "invalid signature"
    else
      match cut "." body with
      | None => JsonWebTokenError "jwt malformed"
      | Some (d, userId) =>
          match of_decimal d with
          | None => JsonWebTokenError "jwt malformed"
          | Some exp =>
              if exp <=? seconds t then TokenExpiredError
              else JwtOk [("userId", JStr userId); ("exp", JNum exp)]
          end
      end.

End Service.

End Token.

(** A single-byte mutation: the same length, and one character changed. *)
Fixpoint mutation_of (s s' : string) : bool :=
  match s, s' with
  | String a rest, String b rest' =>
      if Ascii.eqb a b then mutation_of rest rest' else String.eqb rest rest'
  | _, _ => false
  end.

(** The time, in seconds, at which a token issued at [t] expires. *)
Definition expiry (t : Z) : Z := Token.seconds t + 7 * 24 * 60 * 60.

(** ** A small deployment, for concrete runs *)

Module Demo.

Definition token_of (payload : JsObj) : string :=
  match obj_get payload "userId" with
  | JStr s => "tok:" ++ s
  | _ => "tok:"
  end.

Definition check_token (token secret : string) (t : Z) : JwtResult :=
  if String.eqb token "stale" then TokenExpiredError
  else if prefix "tok:" token
       then JwtOk [("userId", JStr (substring_from 4 token))]
       else JsonWebTokenError "jwt malformed".

(** A stand-in for [insertExpenseSchema] of [@shared/schema], which is not
    among the sources: it requires the non-null text columns of
    ["expenses"], as the migration declares them. *)
Definition parse_expense (o : JsObj) : Res JsObj :=
  match obj_get o "userId", obj_get o "type", obj_get o "description",
        obj_get o "category" with
  | JStr _, JStr _, JStr _, JStr _ => Ok o
  | _, _, _, _ => Throw "ZodError"
  end.

Definition uuid (n : nat) : string :=
  "id-" ++ String (ascii_of_nat (48 + n)) EmptyString.

Definition env : Env :=
  mkEnv "secret"
        (fun payload _ _ _ => token_of payload)
        check_token
        (fun pw _ _ => "hash:" ++ pw)
        (fun pw hash => String.eqb ("hash:" ++ pw) hash)
        uuid
        (fun v => v)
        (fun v => v)
        (fun v => match v with JStr s => JDate (Z.of_nat (String.length s)) | _ => v end)
        parse_expense
        (fun _ _ _ => Ok [("suggestedCategory", JStr "transport");
                          ("tags", JArr [JStr "taxi"])]).

Definition storage : IStorage := Storage.specStorage uuid.

Definition person (id email pw : string) : UserRow :=
  mkUser id (Some email) (Some ("hash:" ++ pw)) (Some id) (Some "Doe") None
         0 0 "en" "USD" "UTC" "light" false.

Definition alice : UserRow := person "alice" "alice@example.com" "wonderland".
Definition bob : UserRow := person "bob" "bob@example.com" "builder".

Definition spend (id owner category description : string) (d : Z)
  (tags : list string) : Expense :=
  mkExpense id owner (JNum 12) "expense" description category d None
            JNull JNull None JNull None (Some tags) 0 0.

Definition lunch : Expense := spend "e1" "alice" "food" "Lunch at the cafe" 100 ["work"].
Definition rent : Expense := spend "e2" "alice" "housing" "Rent for May" 200 ["home"].
Definition taxi : Expense := spend "e3" "bob" "transport" "Taxi" 150 ["work"].

Definition world : World := mkWorld [alice; bob] [lunch; rent; taxi] 1000 0 [].

Definition request (m : Method) (path : list string) (auth : option string)
  (query body : JsObj) : Request :=
  mkRequest m path auth query body [] None JUndefined None.

Definition bearer (id : string) : option string := Some ("Bearer tok:" ++ id).

(** The same deployment with an insert schema that accepts every body
    and only coerces a date string to a date. *)
Definition coerce_date (o : JsObj) : Res JsObj :=
  match obj_get o "date" with
  | JStr d => Ok (obj_set o "date" (newDate env (JStr d)))
  | _ => Ok o
  end.

Definition lax_env : Env :=
  mkEnv (JWT_SECRET env) (jwt_sign env) (jwt_verify env) (bcrypt_hash env)
        (bcrypt_compare env) (randomUUID env) (parseFloat env) (toNumber env)
        (newDate env) coerce_date (analyzeExpense env).

(** A request as the handlers of [routes.ts] expect it: [req.user] with a
    [userId] property. *)
Definition as_user (id : string) (r : Request) : Request :=
  attach_identity (JStr id) [("userId", JStr id)] r.

(** Alice lists her food expenses. *)
Definition list_request : Request :=
  request GET ["api"; "expenses"] (bearer "alice") [("category", JStr "food")] [].

(** Bob goes after Alice's lunch. *)
Definition patch_request : Request :=
  request PATCH ["api"; "expenses"; "e1"] (bearer "bob") []
          [("description", JStr "Dinner")].

Definition delete_request : Request :=
  request DELETE ["api"; "expenses"; "e1"] (bearer "bob") [] [].

(** Alice records a ride without naming a category. *)
Definition uber_request : Request :=
  request POST ["api"; "expenses"] (bearer "alice") []
          [ ("description", JStr "Uber to airport"); ("amount", JStr "23.50");
            ("type", JStr "expense"); ("date", JStr "2024-05-01") ].

(** A token that verifies, for an account that is gone. *)
Definition ghost_request : Request :=
  request GET ["api"; "auth"; "user"] (bearer "ghost") [] [].

Definition whoami_request : Request :=
  request GET ["api"; "auth"; "user"] (bearer "alice") [] [].

Definition anonymous_request : Request :=
  request GET ["api"; "auth"; "user"] None [] [].

Definition register_request (email : string) : Request :=
  request POST ["api"; "register"] None []
          [ ("email", JStr email); ("password", JStr "opensesame");
            ("firstName", JStr "Alice"); ("lastName", JStr "Liddell") ].

Definition login_request (email password : string) : Request :=
  request POST ["api"; "login"] None []
          [ ("email", JStr email); ("password", JStr password) ].

(** The world once Alice's account is deleted. *)
Definition world_without_alice : World := mkWorld [bob] [taxi] 1000 0 [].

(** An account without a password hash, as the ["users"] table allows. *)
Definition guest : UserRow :=
  mkUser "guest" (Some "guest@example.com") None (Some "Guest") (Some "Doe") None
         0 0 "en" "USD" "UTC" "light" false.

Definition world_with_guest : World := mkWorld [alice; guest] [lunch] 1000 0 [].

Definition logout_request : Request :=
  request POST ["api"; "logout"] None [] [].

(** A token past its expiry. *)
Definition stale_request : Request :=
  request GET ["api"; "auth"; "user"] (Some "Bearer stale") [] [].

(** A list request without a token. *)
Definition anonymous_list_request : Request :=
  request GET ["api"; "expenses"] None [] [].

(** A login attempt with any JSON value as the password. *)
Definition login_attempt (email : string) (password : JsVal) : Request :=
  request POST ["api"; "login"] None []
          [ ("email", JStr email); ("password", password) ].

(** A one-character signature: the sum of the characters of the key and of
    the text, modulo 256. *)
Fixpoint checksum (s : string) : Z :=
  match s with
  | EmptyString => 0
  | String c rest => (Z.of_nat (nat_of_ascii c) + checksum rest) mod 256
  end.

Definition mac (key text : string) : string :=
  String (ascii_of_nat (Z.to_nat (checksum (key ++ text)))) EmptyString.

(** The deployment with the token service in place of the token library. *)
Definition token_env : Env :=
  mkEnv (JWT_SECRET env) (Token.sign mac) (Token.verify mac 1) (bcrypt_hash env)
        (bcrypt_compare env) (randomUUID env) (parseFloat env) (toNumber env)
        (newDate env) (insertExpenseSchema_parse env) (analyzeExpense env).

(** [?tags=work&tags=home]: Express parses a repeated parameter to an array. *)
Definition repeated_tags_request : Request :=
  as_user "alice"
    (request GET ["api"; "receipts"; "search"] (bearer "alice")
             [("tags", JArr [JStr "work"; JStr "home"])] []).

End Demo.

(** ** More of the server: receipts, request log, live routes *)

Definition set_body (b : JsObj) (r : Request) : Request :=
  mkRequest (req_method r) (req_path r) (req_authorization r) (req_query r)
            b (req_params r) (req_file r) (req_userId r) (req_user r).

(** Whether a JSON value has a property named [k], at any depth. *)
Fixpoint mentions (k : string) (v : JsVal) : bool :=
  match v with
  | JArr items => existsb (mentions k) items
  | JObj fields =>
      existsb (fun p => String.eqb (fst p) k || mentions k (snd p)) fields
  | _ => false
  end.

(** [v.k] on a value: a property of an object, [undefined] otherwise. *)
Definition js_get (v : JsVal) (k : string) : JsVal :=
  match v with
  | JObj fields => obj_get fields k
  | _ => JUndefined
  end.

(** The items of a response that answers with a JSON array. *)
Definition items_of (r : Response) : list JsVal :=
  match body r with
  | BJson (JArr items) => items
  | _ => []
  end.

Section Receipts.

Variable env : Env.
Variable storage : IStorage.

Definition tags_json (tags : option (list string)) : JsVal :=
  match tags with
  | Some l => JArr (map JStr l)
  | None => JNull
  end.

(** [expenses.filter(expense => expense.receiptUrl)]. *)
Definition has_receipt (e : Expense) : bool := truthy (opt_str (e_receiptUrl e)).

(** The object a receipt is listed as. *)
Definition receipt_of (e : Expense) : JsVal :=
  JObj [ ("id", JStr (e_id e));
         ("description", JStr (e_description e));
         ("category", JStr (e_category e));
         ("amount", e_amount e);
         ("date", JDate (e_date e));
         ("receiptUrl", opt_str (e_receiptUrl e));
         ("tags", tags_json (e_tags e));
         ("location", opt_str (e_location e)) ].

(** [if (v) filters.k = f(v)]. *)
Definition put_if (k : string) (v : JsVal) (f : JsVal -> JsVal) (filters : JsObj)
  : JsObj :=
  if truthy v then obj_set filters k (f v) else filters.

(** The filter object of the receipt search: [{ userId }], then one
    property for each query parameter that is given. *)
Definition receipt_filters (userId : JsVal) (q : JsObj) : M JsObj :=
  let filters :=
    put_if "endDate" (obj_get q "dateTo") (newDate env)
      (put_if "startDate" (obj_get q "dateFrom") (newDate env)
         (put_if "category" (obj_get q "category") (fun v => v)
            (put_if "search" (obj_get q "query") (fun v => v)
               [("userId", userId)]))) in
  if truthy (obj_get q "tags") then
    match obj_get q "tags" with
    | JStr s => ret (obj_set filters "tags" (JArr (map JStr (split_on "," s))))
    | _ => throw "TypeError: tags.split is not a function"
    end
  else ret filters.

(** [app.get('/api/receipts/search', isAuthenticated, ...)]. *)
Definition search_receipts : Handler := fun req =>
  try_catch
    (userId <- user_userId req ;;
     filters <- receipt_filters userId (req_query req) ;;
     expenses <- getExpenses storage userId (Some filters) ;;
     let receipts := map receipt_of (filter has_receipt expenses) in
     ret (Send (json (BJson (JArr receipts)))))
    (fun _ => ret (Send (respond 500 (message "Failed to search receipts")))).

(** The route table without the registrations that repeat an earlier
    method and path. *)
Definition liveRoutes : list Route :=
  setupAuth env ++
  [ mkRoute POST [Lit "api"; Lit "expenses"]
            [guard env; ("upload.single", upload_single "receipt");
             ("post_expense_upload", post_expense_upload env storage)];
    mkRoute GET [Lit "api"; Lit "expenses"]
            [guard env; ("get_expenses_plain", get_expenses_plain storage)];
    mkRoute PUT [Lit "api"; Lit "expenses"; Param "id"]
            [guard env; ("upload.single", upload_single "receipt");
             ("put_expense", put_expense env storage)];
    mkRoute DELETE [Lit "api"; Lit "expenses"; Param "id"]
            [guard env; ("delete_expense", delete_expense storage)];
    mkRoute GET [Lit "api"; Lit "expenses"; Param "id"]
            [guard env; ("get_expense", get_expense storage)];
    mkRoute PATCH [Lit "api"; Lit "expenses"; Param "id"]
            [guard env; ("patch_expense", patch_expense storage)] ].

End Receipts.

(** Whether a route is tried for a request. *)
Definition route_matches (rt : Route) (req : Request) : bool :=
  method_eqb (rt_method rt) (req_method req)
  && match match_path (rt_pattern rt) (req_path req) with
     | Some _ => true
     | None => false
     end.

(** A chain that answers every request it is run on. *)
Definition always_answers (chain : list (string * Handler)) : Prop :=
  forall req w, exists r w', run_chain chain req w = (inl r, w').

(** A handler that answers every request, with one of the given status
    codes: it neither calls [next()] nor lets an exception out. *)
Definition answers_within (codes : list Z) (h : Handler) : Prop :=
  forall req w, exists r w', h req w = (Ok (Send r), w') /\ In (status r) codes.

(** A handler that lets no exception out. *)
Definition never_throws (h : Handler) : Prop :=
  forall req w, exists s w', h req w = (Ok s, w').

(** A chain that answers every request with one of the given status codes. *)
Definition chain_within (codes : list Z) (chain : list (string * Handler)) : Prop :=
  forall req w, exists r w',
    run_chain chain req w = (inl r, w') /\ In (status r) codes.

(** Two patterns that match the same paths: the same literals at the same
    places, a parameter where the other has one. *)
Fixpoint pattern_eqb (p q : list Seg) : bool :=
  match p, q with
  | [], [] => true
  | Lit s :: p', Lit t :: q' => String.eqb s t && pattern_eqb p' q'
  | Param _ :: p', Param _ :: q' => pattern_eqb p' q'
  | _, _ => false
  end.

(** Two routes registered for the same method and path. *)
Definition same_place (a b : Route) : bool :=
  method_eqb (rt_method a) (rt_method b)
  && pattern_eqb (rt_pattern a) (rt_pattern b).

(** A route table without the routes that repeat the method and path of
    one registered before them. *)
Fixpoint first_registrations (seen routes : list Route) : list Route :=
  match routes with
  | [] => []
  | rt :: rest =>
      if existsb (same_place rt) seen then first_registrations seen rest
      else rt :: first_registrations (seen ++ [rt]) rest
  end.

(** *** The ["users"] table as registration keeps it *)

Definition emails_of (us : list UserRow) : list string :=
  flat_map (fun u => match u_email u with Some e => [e] | None => [] end) us.

(** Ids and emails are unique, and every row has a password hash. *)
Definition users_ok (us : list UserRow) : Prop :=
  NoDup (map u_id us)
  /\ NoDup (emails_of us)
  /\ Forall (fun u => u_password u <> None) us.

(** The row a registration stores: the id is the second random draw of the
    request, after the salt of the hash. *)
Definition registered (env : Env) (e p f l : string) (w : World) : UserRow :=
  mkUser (randomUUID env (S (seed w))) (Some e)
         (Some (bcrypt_hash env p 10 (seed w))) (Some f) (Some l) None
         (clock w) (clock w) "en" "USD" "UTC" "light" false.

(** *** The request log of [index.ts] *)

(** A JavaScript string: its UTF-16 code units. *)
Definition JsString : Type := list N.

Definition units (s : string) : JsString :=
  map N_of_ascii (list_ascii_of_string s).

(** The horizontal ellipsis, U+2026. *)
Definition ellipsis : N := 8230%N.

Fixpoint starts_with (p s : JsString) : bool :=
  match p, s with
  | [], _ => true
  | a :: p', b :: s' => N.eqb a b && starts_with p' s'
  | _ :: _, [] => false
  end.

(** The line composed when a response finishes; [captured] is the JSON
    text of the body given to [res.json], when that body is truthy. *)
Definition fullLine (method path statusCode duration : JsString)
  (captured : option JsString) : JsString :=
  let line := (method ++ units " " ++ path ++ units " " ++ statusCode
               ++ units " in " ++ duration ++ units "ms")%list in
  match captured with
  | Some text => (line ++ units " :: " ++ text)%list
  | None => line
  end.

(** [if (logLine.length > 80) logLine = logLine.slice(0, 79) + "..."],
    with the one-character ellipsis. *)
Definition shorten (line : JsString) : JsString :=
  if (80 <? length line)%nat then (firstn 79 line ++ [ellipsis])%list else line.

Definition logLine (method path statusCode duration : JsString)
  (captured : option JsString) : JsString :=
  shorten (fullLine method path statusCode duration captured).

(** [items.join(sep)] for a one-character separator. *)
Fixpoint join (sep : ascii) (items : list string) : string :=
  match items with
  | [] => EmptyString
  | [x] => x
  | x :: rest => x ++ String sep (join sep rest)
  end.

(** What the middleware logs for a finished response: a line, for paths
    that begin with [/api], nothing for the others. *)
Definition logged (method path statusCode duration : JsString)
  (captured : option JsString) : option JsString :=
  if starts_with (units "/api") path
  then Some (logLine method path statusCode duration captured)
  else None.

(** * Properties *)

Unset Implicit Arguments.

(** Unfold the monadic plumbing of a computation. *)
Ltac run :=
  cbv beta iota zeta delta
    [try_catch bind ret throw lift gets modify now fresh select_users verify].

(** Projections of an updated world or request. *)
Lemma users_add_event e w : users (add_event e w) = users w.
Proof. reflexivity. Qed.
Lemma expenses_add_event e w : expenses (add_event e w) = expenses w.
Proof. reflexivity. Qed.
Lemma clock_add_event e w : clock (add_event e w) = clock w.
Proof. reflexivity. Qed.
Lemma seed_add_event e w : seed (add_event e w) = seed w.
Proof. reflexivity. Qed.
Lemma log_add_event e w : log (add_event e w) = (log w ++ [e])%list.
Proof. reflexivity. Qed.
Lemma body_set_params ps r : req_body (set_params ps r) = req_body r.
Proof. reflexivity. Qed.
Lemma query_set_params ps r : req_query (set_params ps r) = req_query r.
Proof. reflexivity. Qed.
Lemma authorization_set_params ps r :
  req_authorization (set_params ps r) = req_authorization r.
Proof. reflexivity. Qed.
Lemma params_set_params ps r : req_params (set_params ps r) = ps.
Proof. reflexivity. Qed.
Lemma userId_set_params ps r : req_userId (set_params ps r) = req_userId r.
Proof. reflexivity. Qed.
Lemma user_attach id row r : req_user (attach_identity id row r) = Some row.
Proof. reflexivity. Qed.
Lemma userId_attach id row r : req_userId (attach_identity id row r) = id.
Proof. reflexivity. Qed.
Lemma query_attach id row r : req_query (attach_identity id row r) = req_query r.
Proof. reflexivity. Qed.
Lemma params_attach id row r : req_params (attach_identity id row r) = req_params r.
Proof. reflexivity. Qed.
Lemma body_attach id row r : req_body (attach_identity id row r) = req_body r.
Proof. reflexivity. Qed.
Lemma file_attach id row r : req_file (attach_identity id row r) = req_file r.
Proof. reflexivity. Qed.

Lemma users_entered n w : users (entered n w) = users w.
Proof. reflexivity. Qed.
Lemma expenses_entered n w : expenses (entered n w) = expenses w.
Proof. reflexivity. Qed.
Lemma clock_entered n w : clock (entered n w) = clock w.
Proof. reflexivity. Qed.

Create Rewrite HintDb proj.
#[export] Hint Rewrite users_add_event expenses_add_event clock_add_event
  seed_add_event log_add_event users_entered expenses_entered clock_entered
  body_set_params query_set_params
  authorization_set_params params_set_params userId_set_params
  user_attach userId_attach query_attach params_attach body_attach
  file_attach : proj.

Section Guard.

Variable env : Env.

Lemma filter_nil_firstn (A : Type) (cond : A -> bool) (l : list A) (n : nat) :
  filter cond l = [] -> firstn n (filter cond l) = [].
Proof. intros ->. now destruct n. Qed.

Lemma filter_cons_first (A : Type) (cond : A -> bool) (l : list A) x more :
  filter cond l = x :: more -> firstn 1 (filter cond l) = [x].
Proof. now intros ->. Qed.

Lemma filter_cons_holds (A : Type) (cond : A -> bool) (l : list A) x more :
  filter cond l = x :: more -> In x l /\ cond x = true.
Proof.
  intros H. apply filter_In. rewrite H. now left.
Qed.

(** A request that fails a check is answered 401, and nothing is written. *)
Lemma isAuthenticated_rejects (req : Request) (w : World) :
  AuthFailure env req w ->
  exists m, isAuthenticated env req w = (Ok (Send (respond 401 (message m))), w).
Proof.
  intros [H | h H Hp | h reason H Hp Hv | h H Hp Hv | h payload H Hp Hv Hu];
    unfold isAuthenticated; run; rewrite H; try rewrite Hp; cbn [negb].
  - eauto.
  - eauto.
  - rewrite Hv. eauto.
  - rewrite Hv. eauto.
  - rewrite Hv. rewrite (filter_nil_firstn _ _ _ 1 Hu). eauto.
Qed.

(** A request that passes every check goes on, with the decoded user id
    and the row of that user attached. *)
Lemma isAuthenticated_accepts (req : Request) (w : World) h payload row more :
  req_authorization req = Some h ->
  prefix "Bearer " h = true ->
  jwt_verify env (substring_from 7 h) (JWT_SECRET env) (clock w) = JwtOk payload ->
  filter (users_id_eq (obj_get payload "userId")) (users w) = row :: more ->
  isAuthenticated env req w
  = (Ok (Next (attach_identity (obj_get payload "userId") (user_to_obj row) req)), w).
Proof.
  intros H Hp Hv Hu. unfold isAuthenticated; run.
  rewrite H, Hp. cbn [negb]. rewrite Hv. now rewrite (filter_cons_first _ _ _ _ _ Hu).
Qed.

(** Every request fails a check or passes them all. *)
Lemma auth_cases (req : Request) (w : World) :
  AuthFailure env req w
  \/ exists h payload row more,
       req_authorization req = Some h
       /\ prefix "Bearer " h = true
       /\ jwt_verify env (substring_from 7 h) (JWT_SECRET env) (clock w) = JwtOk payload
       /\ filter (users_id_eq (obj_get payload "userId")) (users w) = row :: more.
Proof.
  destruct (req_authorization req) as [h |] eqn:H; [| left; now apply NoHeader].
  destruct (prefix "Bearer " h) eqn:Hp; [| left; now apply NotBearer with h].
  destruct (jwt_verify env (substring_from 7 h) (JWT_SECRET env) (clock w))
    as [payload | reason |] eqn:Hv.
  - destruct (filter (users_id_eq (obj_get payload "userId")) (users w))
      as [| row more] eqn:Hu.
    + left. now apply NoSuchUser with h payload.
    + right. now exists h, payload, row, more.
  - left. now apply BadToken with h reason.
  - left. now apply Expired with h.
Qed.

(** [isAuthenticated] only reads. *)
Lemma isAuthenticated_reads (req : Request) (w : World) :
  snd (isAuthenticated env req w) = w.
Proof.
  destruct (auth_cases req w) as [F | (h & payload & row & more & H & Hp & Hv & Hu)].
  - destruct (isAuthenticated_rejects _ _ F) as [m ->]. reflexivity.
  - now rewrite (isAuthenticated_accepts _ _ _ _ _ _ H Hp Hv Hu).
Qed.

(** When the guard lets a request through, the checks had passed. *)
Lemma isAuthenticated_next (req req' : Request) (w w' : World) :
  isAuthenticated env req w = (Ok (Next req'), w') ->
  w' = w
  /\ exists h payload row more,
       req_authorization req = Some h
       /\ prefix "Bearer " h = true
       /\ jwt_verify env (substring_from 7 h) (JWT_SECRET env) (clock w) = JwtOk payload
       /\ filter (users_id_eq (obj_get payload "userId")) (users w) = row :: more
       /\ req' = attach_identity (obj_get payload "userId") (user_to_obj row) req.
Proof.
  intros E.
  destruct (auth_cases req w) as [F | (h & payload & row & more & H & Hp & Hv & Hu)].
  - destruct (isAuthenticated_rejects _ _ F) as [m E']. congruence.
  - rewrite (isAuthenticated_accepts _ _ _ _ _ _ H Hp Hv Hu) in E.
    inversion E; subst. split; [reflexivity |].
    now exists h, payload, row, more.
Qed.

Lemma auth_failure_ext (req req' : Request) (w w' : World) :
  req_authorization req' = req_authorization req ->
  clock w' = clock w -> users w' = users w ->
  AuthFailure env req w -> AuthFailure env req' w'.
Proof.
  intros Ha Hc Hu F.
  destruct F; [ apply NoHeader | apply NotBearer with h | apply BadToken with h reason
              | apply Expired with h | apply NoSuchUser with h payload ];
    congruence.
Qed.

Lemma guard_rejects (rest : list (string * Handler)) (req : Request) (w : World) :
  AuthFailure env req w ->
  exists m, run_chain (guard env :: rest) req w
            = (inl (respond 401 (message m)), entered "isAuthenticated" w).
Proof.
  intros F.
  assert (F' : AuthFailure env req (entered "isAuthenticated" w))
    by (now apply auth_failure_ext with req w).
  destruct (isAuthenticated_rejects _ _ F') as [m E].
  exists m. unfold guard. cbn [run_chain]. unfold entered in *. now rewrite E.
Qed.

Lemma guard_accepts (rest : list (string * Handler)) (req : Request) (w : World)
      h payload row more :
  req_authorization req = Some h ->
  prefix "Bearer " h = true ->
  jwt_verify env (substring_from 7 h) (JWT_SECRET env) (clock w) = JwtOk payload ->
  filter (users_id_eq (obj_get payload "userId")) (users w) = row :: more ->
  run_chain (guard env :: rest) req w
  = run_chain rest (attach_identity (obj_get payload "userId") (user_to_obj row) req)
              (entered "isAuthenticated" w).
Proof.
  intros H Hp Hv Hu. unfold guard. cbn [run_chain].
  assert (E := isAuthenticated_accepts req (entered "isAuthenticated" w)
                 h payload row more H Hp Hv Hu).
  unfold entered in *. now rewrite E.
Qed.

(** C2. The guard of the authenticated routes: on a route guarded by
    [isAuthenticated], a request without an [Authorization] header, with a
    header that does not begin with ["Bearer "], with a token whose
    signature does not verify, with an expired token, or whose decoded user
    id names no user record is answered with status 401, and no handler
    after the guard is entered (the world only records that the guard ran).
    A request that fails none of these checks is handed, with the identity
    attached, to the handlers after the guard: only then does a handler
    run. *)
Theorem isAuthenticated_guards (rest : list (string * Handler)) (req : Request) (w : World) :
  (AuthFailure env req w ->
   exists m, run_chain (guard env :: rest) req w
             = (inl (respond 401 (message m)), entered "isAuthenticated" w))
  /\ (~ AuthFailure env req w ->
      exists id row,
        In row (users w)
        /\ run_chain (guard env :: rest) req w
           = run_chain rest (attach_identity id (user_to_obj row) req)
                       (entered "isAuthenticated" w)).
Proof.
  split.
  - apply guard_rejects.
  - intros NF.
    destruct (auth_cases req w) as [F | (h & payload & row & more & H & Hp & Hv & Hu)];
      [contradiction |].
    exists (obj_get payload "userId"), row. split.
    + apply (filter_cons_holds _ _ _ _ _ Hu).
    + now apply guard_accepts with h more.
Qed.

End Guard.

(** ** Route selection *)

Lemma dispatch_skip rt rest req w :
  method_eqb (rt_method rt) (req_method req)
  && match match_path (rt_pattern rt) (req_path req) with
     | Some _ => true
     | None => false
     end = false ->
  dispatch (rt :: rest) req w = dispatch rest req w.
Proof.
  cbn [dispatch]. destruct (method_eqb _ _); [| reflexivity].
  destruct (match_path _ _); [discriminate | reflexivity].
Qed.

Lemma dispatch_hit rt rest req w ps :
  method_eqb (rt_method rt) (req_method req) = true ->
  match_path (rt_pattern rt) (req_path req) = Some ps ->
  dispatch (rt :: rest) req w
  = match run_chain (rt_chain rt) (set_params ps req) w with
    | (inl r, w') => (r, w')
    | (inr req', w') => dispatch rest req' w'
    end.
Proof. cbn [dispatch]. now intros -> ->. Qed.

Ltac side Hm Hp :=
  cbn [rt_method rt_pattern]; try rewrite Hm; try rewrite Hp; reflexivity.

(** Walk the route table to the first route a request matches. *)
Ltac route Hm Hp :=
  unfold serve, app, setupAuth, registerRoutes; cbn [List.app];
  repeat (rewrite dispatch_skip by side Hm Hp);
  erewrite dispatch_hit by side Hm Hp;
  cbn [rt_chain].

(** ** Accounts: what the guard attaches, registration, login *)

Section Accounts.

Variable env : Env.
Variable storage : IStorage.

Lemma users_id_eq_true (v : JsVal) (u : UserRow) :
  users_id_eq v u = true -> v = JStr (u_id u).
Proof.
  destruct v; try discriminate. cbn [users_id_eq].
  intros E. apply String.eqb_eq in E. now subst.
Qed.

(** No handler of [routes.ts] looks at [req.userId]. *)
Lemma handlers_ignore_req_userId (r : Request) (v : JsVal) :
  Forall (fun h : Handler => h (set_userId v r) = h r) (resource_handlers env storage).
Proof. destruct r. unfold resource_handlers. repeat constructor. Qed.


(** The token registration and login answer with: the library's signature
    over the payload [{ userId: user.id }], under [JWT_SECRET], with
    [expiresIn: '7d'], taken at the time of the request; the guard verifies
    under the same secret. *)
Lemma issue_token_payload (u : UserRow) (w : World) :
  issue_token env u w
  = (Ok (jwt_sign env [("userId", JStr (u_id u))] (JWT_SECRET env) "7d" (clock w)), w).
Proof. reflexivity. Qed.

Lemma substring_all (s : string) : substring 0 (String.length s) s = s.
Proof. induction s as [| c s IH]; [reflexivity |]. cbn. now rewrite IH. Qed.

(** A token sent as [Authorization: Bearer <token>] is the token the guard
    verifies. *)
Lemma bearer_round_trip (token : string) :
  prefix "Bearer " ("Bearer " ++ token) = true
  /\ substring_from 7 ("Bearer " ++ token) = token.
Proof.
  split.
  - destruct token; reflexivity.
  - unfold substring_from. cbn. rewrite Nat.sub_0_r. apply substring_all.
Qed.

Lemma select_users_found (cond : UserRow -> bool) (row : UserRow) (w : World) :
  In row (users w) -> cond row = true ->
  exists first, firstn 1 (filter cond (users w)) = [first].
Proof.
  intros Hin Hc.
  destruct (filter cond (users w)) as [| first more] eqn:E.
  - assert (In row (filter cond (users w))) by (apply filter_In; now split).
    rewrite E in H. contradiction.
  - now exists first.
Qed.

(** C5. Duplicate registration: when the email of a [POST /api/register]
    request (all four fields supplied) is already that of a user record,
    the request fails with the conflict answer, status 400 and the message
    [User already exists]; the ["users"] table after the request is the
    table before it: the existing record is unchanged and no row is
    added. *)
Theorem register_duplicate (req : Request) (w : World) (e : string) (row : UserRow) :
  req_method req = POST ->
  req_path req = ["api"; "register"] ->
  obj_get (req_body req) "email" = JStr e ->
  truthy (obj_get (req_body req) "email") = true ->
  truthy (obj_get (req_body req) "password") = true ->
  truthy (obj_get (req_body req) "firstName") = true ->
  truthy (obj_get (req_body req) "lastName") = true ->
  In row (users w) ->
  u_email row = Some e ->
  fst (serve env storage req w) = respond 400 (message "User already exists")
  /\ users (snd (serve env storage req w)) = users w.
Proof.
  intros Hm Hp He T1 T2 T3 T4 Hin Hrow.
  route Hm Hp. cbn [run_chain]. unfold register. run.
  autorewrite with proj. rewrite T1, T2, T3, T4. cbn [negb orb].
  rewrite He.
  assert (Hc : users_email_eq (JStr e) row = true).
  { unfold users_email_eq. rewrite Hrow. apply String.eqb_refl. }
  destruct (select_users_found (users_email_eq (JStr e)) row
              (add_event (EvHandler "register") w) Hin Hc) as [first ->].
  cbn. split; reflexivity.
Qed.

(** Login with a password given as text: of two failed
    [POST /api/login] attempts, one with an email no user record has, the
    other with the email of a record that has a stored hash and a text
    password that does not match it, both get the same answer, status 401
    with the message [Invalid credentials]. *)
Theorem login_no_enumeration (req1 req2 : Request) (w1 w2 : World)
        (p2 hash : string) (row : UserRow) (more : list UserRow) :
  req_method req1 = POST -> req_path req1 = ["api"; "login"] ->
  req_method req2 = POST -> req_path req2 = ["api"; "login"] ->
  truthy (obj_get (req_body req1) "email") = true ->
  truthy (obj_get (req_body req1) "password") = true ->
  filter (users_email_eq (obj_get (req_body req1) "email")) (users w1) = [] ->
  truthy (obj_get (req_body req2) "email") = true ->
  obj_get (req_body req2) "password" = JStr p2 ->
  p2 <> EmptyString ->
  filter (users_email_eq (obj_get (req_body req2) "email")) (users w2) = row :: more ->
  u_password row = Some hash ->
  bcrypt_compare env p2 hash = false ->
  fst (serve env storage req1 w1) = fst (serve env storage req2 w2)
  /\ fst (serve env storage req2 w2) = respond 401 (message "Invalid credentials").
Proof.
  intros Hm1 Hp1 Hm2 Hp2 E1 P1 U1 E2 P2 Hne U2 Hh Hc.
  assert (A1 : fst (serve env storage req1 w1)
               = respond 401 (message "Invalid credentials")).
  { route Hm1 Hp1. cbn [run_chain]. unfold login. run.
    autorewrite with proj. rewrite E1, P1. cbn [negb orb]. autorewrite with proj.
    rewrite U1. reflexivity. }
  assert (A2 : fst (serve env storage req2 w2)
               = respond 401 (message "Invalid credentials")).
  { route Hm2 Hp2. cbn [run_chain]. unfold login. run.
    autorewrite with proj. rewrite E2, P2.
    assert (T : truthy (JStr p2) = true).
    { cbn [truthy]. destruct (String.eqb_spec p2 EmptyString); [contradiction | reflexivity]. }
    rewrite T. cbn [negb orb]. autorewrite with proj.
    rewrite (filter_cons_first _ _ _ _ _ U2). rewrite Hh.
    cbn [as_string opt_str]. rewrite Hc. reflexivity. }
  split; congruence.
Qed.

End Accounts.

(** ** Expense lists: scoping and filters *)

Section ExpenseLists.

Variable env : Env.
Variable uuid : nat -> string.

Let storage : IStorage := Storage.specStorage uuid.

Import Storage.

(** The data layer returns rows of the table, owned by the id it is given
    and passing the filters it is given. *)
Lemma spec_getExpenses_scoped (userId : JsVal) (filters : option JsObj) (w : World) :
  exists l,
    spec_getExpenses userId filters w = (Ok l, w)
    /\ Forall (fun e => In e (expenses w)
                        /\ owned_by userId e = true
                        /\ matches filters e = true) l.
Proof.
  eexists. split; [reflexivity |].
  apply Forall_forall. intros e He.
  apply filter_In in He. destruct He as [Hin Hb].
  apply andb_true_iff in Hb. tauto.
Qed.

Lemma owned_by_string (userId : JsVal) (e : Expense) :
  owned_by userId e = true -> userId = JStr (e_userId e).
Proof.
  destruct userId; try discriminate. cbn [owned_by].
  intros E. apply String.eqb_eq in E. now subst.
Qed.

(** The first-registered list handler: the rows owned by the id it reads. *)
Lemma get_expenses_plain_scoped (req : Request) (w : World) :
  Forall (fun e => owned_by (identity_read req) e = true)
         (listed (get_expenses_plain storage req w)).
Proof.
  unfold get_expenses_plain, user_userId, identity_read, listed. run.
  destruct (req_user req) as [u |]; [| constructor].
  cbn [storage specStorage getExpenses].
  destruct (spec_getExpenses_scoped (obj_get u "userId") None w) as (l & -> & F).
  cbn [fst expenses_of json body].
  eapply Forall_impl; [| exact F]. cbn beta. tauto.
Qed.

Lemma obj_get_set_same (o : JsObj) (k : string) (v : JsVal) :
  obj_get (obj_set o k v) k = v.
Proof.
  induction o as [| [k' v'] o IH]; cbn [obj_set obj_get].
  - now rewrite String.eqb_refl.
  - destruct (String.eqb k' k) eqn:E; cbn [obj_get].
    + now rewrite String.eqb_refl.
    + now rewrite E.
Qed.

Lemma obj_get_set_other (o : JsObj) (k k' : string) (v : JsVal) :
  k <> k' -> obj_get (obj_set o k v) k' = obj_get o k'.
Proof.
  intros Hne.
  induction o as [| [k0 v0] o IH]; cbn [obj_set obj_get].
  - destruct (String.eqb_spec k k'); [contradiction | reflexivity].
  - destruct (String.eqb_spec k0 k) as [-> | Hk]; cbn [obj_get].
    + destruct (String.eqb_spec k k'); [contradiction | reflexivity].
    + destruct (String.eqb k0 k'); [reflexivity | exact IH].
Qed.

Lemma convert_date_same (k : string) (q : JsObj) :
  obj_get (convert_date env k q) k
  = if truthy (obj_get q k) then newDate env (obj_get q k) else obj_get q k.
Proof.
  unfold convert_date. destruct (truthy (obj_get q k)); [| reflexivity].
  apply obj_get_set_same.
Qed.

Lemma convert_date_other (k k' : string) (q : JsObj) :
  k <> k' -> obj_get (convert_date env k q) k' = obj_get q k'.
Proof.
  intros Hne. unfold convert_date. destruct (truthy (obj_get q k)); [| reflexivity].
  now apply obj_get_set_other.
Qed.

Lemma truthy_string (s : string) : truthy (JStr s) = negb (String.eqb s EmptyString).
Proof. reflexivity. Qed.

Lemma existsb_is_tag (t : string) (l : list string) :
  existsb (is_tag t) (map JStr l) = true -> In t l.
Proof.
  intros E. apply existsb_exists in E. destruct E as (v & Hv & Ht).
  apply in_map_iff in Hv. destruct Hv as (s & <- & Hs).
  cbn [is_tag] in Ht. apply String.eqb_eq in Ht. now subst.
Qed.

(** The filters the second-registered list handler hands to the data layer
    ask of an expense what the query string asks. *)
Lemma converted_filters_sound (q filters : JsObj) (w w' : World) (e : Expense) :
  convert_tags (convert_date env "endDate" (convert_date env "startDate" q)) w
  = (Ok filters, w') ->
  matches (Some filters) e = true ->
  satisfies_query env q e.
Proof.
  set (q1 := convert_date env "startDate" q).
  set (q2 := convert_date env "endDate" q1).
  intros Hc Hm. cbn [matches] in Hm.
  apply andb_true_iff in Hm. destruct Hm as [Hm Msearch].
  apply andb_true_iff in Hm. destruct Hm as [Hm Mtags].
  apply andb_true_iff in Hm. destruct Hm as [Hm Mend].
  apply andb_true_iff in Hm. destruct Hm as [Mcat Mstart].
  assert (Hcat : obj_get q2 "category" = obj_get q "category").
  { unfold q2, q1. now rewrite !convert_date_other by discriminate. }
  assert (Hsearch : obj_get q2 "search" = obj_get q "search").
  { unfold q2, q1. now rewrite !convert_date_other by discriminate. }
  assert (Htags : obj_get q2 "tags" = obj_get q "tags").
  { unfold q2, q1. now rewrite !convert_date_other by discriminate. }
  assert (Hstart : obj_get q2 "startDate"
                   = if truthy (obj_get q "startDate")
                     then newDate env (obj_get q "startDate")
                     else obj_get q "startDate").
  { unfold q2. rewrite convert_date_other by discriminate.
    unfold q1. apply convert_date_same. }
  assert (Hend : obj_get q2 "endDate"
                 = if truthy (obj_get q "endDate")
                   then newDate env (obj_get q "endDate")
                   else obj_get q "endDate").
  { unfold q2. rewrite convert_date_same.
    unfold q1. now rewrite !convert_date_other by discriminate. }
  (* what [convert_tags] leaves of [q2] *)
  assert (Hf : (forall k, k <> "tags" -> obj_get filters k = obj_get q2 k)
               /\ obj_get filters "tags"
                  = match obj_get q "tags" with
                    | JStr s => if String.eqb s EmptyString then JStr s
                                else JArr (map JStr (split_on "," s))
                    | v => v
                    end).
  { unfold convert_tags in Hc. rewrite Htags in Hc.
    destruct (obj_get q "tags") as [| | b | n | s | t | items | fields] eqn:Et;
      cbn [truthy] in Hc; run;
      try (destruct b); try (destruct (n =? 0)); cbn [negb] in Hc;
      try discriminate;
      try (inversion Hc; subst; split; [reflexivity | now rewrite Htags]).
    destruct (String.eqb s EmptyString) eqn:Es; cbn [negb] in Hc; inversion Hc; subst.
    - split; [reflexivity | now rewrite Htags].
    - split.
      + intros k Hk. apply obj_get_set_other. congruence.
      + apply obj_get_set_same. }
  destruct Hf as [Hkeep Htag'].
  unfold category_ok in Mcat. unfold startDate_ok in Mstart.
  unfold endDate_ok in Mend. unfold tags_ok in Mtags. unfold search_ok in Msearch.
  rewrite Hkeep, Hcat in Mcat by discriminate.
  rewrite Hkeep, Hstart in Mstart by discriminate.
  rewrite Hkeep, Hend in Mend by discriminate.
  rewrite Htag' in Mtags.
  rewrite Hkeep, Hsearch in Msearch by discriminate.
  repeat split.
  - intros c Hq. rewrite Hq in Mcat. now apply String.eqb_eq.
  - intros s d Hq Hd. rewrite Hq, truthy_string in Mstart.
    destruct (String.eqb s EmptyString); cbn [negb] in Mstart; [discriminate |].
    rewrite Hd in Mstart. now apply Z.leb_le.
  - intros s d Hq Hd. rewrite Hq, truthy_string in Mend.
    destruct (String.eqb s EmptyString); cbn [negb] in Mend; [discriminate |].
    rewrite Hd in Mend. now apply Z.leb_le.
  - intros s Hq. rewrite Hq in Mtags.
    destruct (String.eqb s EmptyString); [discriminate |].
    apply existsb_exists in Mtags. destruct Mtags as (t & Ht & Hex).
    exists t. split; [now apply existsb_is_tag | assumption].
  - intros s Hq. now rewrite Hq in Msearch.
Qed.

(** The second-registered list handler: the rows owned by the id it reads
    that satisfy the query string. *)
Lemma get_expenses_filtered_scoped (req : Request) (w : World) :
  Forall (fun e => owned_by (identity_read req) e = true
                   /\ satisfies_query env (req_query req) e)
         (listed (get_expenses_filtered env storage req w)).
Proof.
  unfold get_expenses_filtered, user_userId, identity_read, listed. run.
  destruct (req_user req) as [u |]; [| constructor].
  destruct (convert_tags
              (convert_date env "endDate" (convert_date env "startDate" (req_query req))) w)
    as [[filters | err] w'] eqn:Hc; [| constructor].
  cbn [storage specStorage getExpenses].
  destruct (spec_getExpenses_scoped (obj_get u "userId") (Some filters) w')
    as (l & -> & F).
  cbn [fst expenses_of json body].
  eapply Forall_impl; [| exact F]. cbn beta.
  intros e (_ & Ho & Hm). split; [assumption |].
  eapply converted_filters_sound; eassumption.
Qed.

Lemma find_all_false (A : Type) (f : A -> bool) (l : list A) :
  (forall x, In x l -> f x = false) -> find f l = None.
Proof.
  induction l as [| a l IH]; intros H; [reflexivity |].
  cbn [find]. rewrite (H a (or_introl eq_refl)).
  apply IH. intros x Hx. apply H. now right.
Qed.

Lemma existsb_all_false (A : Type) (f : A -> bool) (l : list A) :
  (forall x, In x l -> f x = false) -> existsb f l = false.
Proof.
  induction l as [| a l IH]; intros H; [reflexivity |].
  cbn [existsb]. rewrite (H a (or_introl eq_refl)).
  apply IH. intros x Hx. apply H. now right.
Qed.

(** An update of an id the user owns no expense of fails with [NotFound]
    and leaves the world as it was. *)
Lemma spec_updateExpense_foreign (id userId : JsVal) (updates : JsObj) (w : World) :
  (forall e, In e (expenses w) -> has_id id e = true -> owned_by userId e = false) ->
  spec_updateExpense id userId updates w = (Throw "NotFound", w).
Proof.
  intros H. unfold spec_updateExpense. run.
  rewrite find_all_false; [reflexivity |].
  intros e He. destruct (has_id id e) eqn:Hid; [| reflexivity].
  now rewrite (H e He Hid).
Qed.

(** So does a delete. *)
Lemma spec_deleteExpense_foreign (id userId : JsVal) (w : World) :
  (forall e, In e (expenses w) -> has_id id e = true -> owned_by userId e = false) ->
  spec_deleteExpense id userId w = (Throw "NotFound", w).
Proof.
  intros H. unfold spec_deleteExpense. run.
  rewrite existsb_all_false; [reflexivity |].
  intros e He. destruct (has_id id e) eqn:Hid; [| reflexivity].
  now rewrite (H e He Hid).
Qed.

Lemma row_has_no_userId (row : UserRow) :
  obj_get (user_to_obj row) "userId" = JUndefined.
Proof. reflexivity. Qed.

Lemma identity_read_attached (id : JsVal) (row : UserRow) (r : Request) :
  identity_read (attach_identity id (user_to_obj row) r) = JUndefined.
Proof. reflexivity. Qed.

Lemma nothing_owned_by_undefined (f : Expense -> bool) (l : list Expense) :
  filter (fun e => owned_by JUndefined e && f e) l = [].
Proof. induction l as [| e l IH]; [reflexivity | exact IH]. Qed.

Lemma Forall_absurd (A : Type) (P Q : A -> Prop) (l : list A) :
  (forall x, P x -> False) -> Forall P l -> Forall Q l.
Proof.
  intros Hn F. eapply Forall_impl; [| exact F].
  intros x Hx. destruct (Hn x Hx).
Qed.

(** [GET /api/expenses] as the application serves it: the request is
    turned away by the guard, or the first-registered handler answers; the
    id it reads from the attached row is [undefined], and the scoped query
    finds no row. *)
Lemma serve_get_expenses (req : Request) (w : World) :
  req_method req = GET ->
  req_path req = ["api"; "expenses"] ->
  (AuthFailure env req w
   /\ exists m, serve env storage req w
                = (respond 401 (message m), entered "isAuthenticated" w))
  \/ (~ AuthFailure env req w
      /\ serve env storage req w
         = (json (BExpenses []),
            entered "get_expenses_plain" (entered "isAuthenticated" w))).
Proof.
  intros Hm Hp. route Hm Hp.
  destruct (auth_cases env (set_params [] req) w)
    as [F | (h & payload & row & more & H & Hb & Hv & Hu)].
  - left. split.
    + now apply auth_failure_ext with (set_params [] req) w.
    + destruct (guard_rejects env
                  [("get_expenses_plain", get_expenses_plain storage)] _ _ F) as [m ->].
      now exists m.
  - right. split.
    + intros F. inversion F; autorewrite with proj in *; congruence.
    + rewrite (guard_accepts env _ _ _ _ _ _ _ H Hb Hv Hu).
      cbn [run_chain]. unfold get_expenses_plain, user_userId. run.
      autorewrite with proj. rewrite row_has_no_userId.
      cbn [storage specStorage getExpenses]. unfold spec_getExpenses. run.
      now rewrite nothing_owned_by_undefined.
Qed.

(** C1. Tenant isolation of list results: for an authenticated
    [GET /api/expenses] request, whatever its query string, every expense
    in the answered list is owned by the authenticated user, whose id the
    guard attached as [req.userId]; an expense of another owner is not in
    the list.  The same holds of the list of the second-registered handler
    on the request the guard hands on.  On any request, either list handler
    lists only expenses owned by the id it reads. *)
Theorem expenses_tenant_isolation (req req' : Request) (w w1 : World) :
  req_method req = GET ->
  req_path req = ["api"; "expenses"] ->
  isAuthenticated env req w = (Ok (Next req'), w1) ->
  Forall (fun e => JStr (e_userId e) = req_userId req')
         (expenses_of (fst (serve env storage req w)))
  /\ (forall e, JStr (e_userId e) <> req_userId req' ->
                ~ In e (expenses_of (fst (serve env storage req w))))
  /\ Forall (fun e => JStr (e_userId e) = req_userId req')
            (listed (get_expenses_filtered env storage req' w1))
  /\ (forall (r : Request) (w' : World),
        Forall (fun e => JStr (e_userId e) = identity_read r)
               (listed (get_expenses_plain storage r w'))
        /\ Forall (fun e => JStr (e_userId e) = identity_read r)
                  (listed (get_expenses_filtered env storage r w'))).
Proof.
  intros Hm Hp E.
  assert (L : expenses_of (fst (serve env storage req w)) = []).
  { destruct (serve_get_expenses req w Hm Hp) as [(_ & m & ->) | (_ & ->)]; reflexivity. }
  rewrite L. split; [constructor | split; [intros e _ [] | split]].
  - destruct (isAuthenticated_next env req req' w w1 E)
      as (-> & h & payload & row & more & _ & _ & _ & _ & ->).
    eapply Forall_absurd; [| apply get_expenses_filtered_scoped].
    intros e [Ho _]. rewrite identity_read_attached in Ho. discriminate.
  - intros r w'. split.
    + eapply Forall_impl; [| apply get_expenses_plain_scoped].
      intros e Ho. symmetry. now apply owned_by_string.
    + eapply Forall_impl; [| apply get_expenses_filtered_scoped].
      intros e [Ho _]. symmetry. now apply owned_by_string.
Qed.

(** The filter parameters and the two list handlers: every expense the
    second-registered handler, which hands the filters to the data layer,
    lists on any request satisfies every filter parameter the request
    supplies ([category] equal, the date within the inclusive
    [startDate]..[endDate] range, a tag in common with [tags], [search] a
    substring of the description).  The list the application answers
    [GET /api/expenses] with is empty, so nothing in it fails a filter. *)
Theorem expenses_filter_contract (req : Request) (w : World) :
  req_method req = GET ->
  req_path req = ["api"; "expenses"] ->
  Forall (satisfies_query env (req_query req))
         (expenses_of (fst (serve env storage req w)))
  /\ (forall (r : Request) (w' : World),
        Forall (satisfies_query env (req_query r))
               (listed (get_expenses_filtered env storage r w'))).
Proof.
  intros Hm Hp. split.
  - destruct (serve_get_expenses req w Hm Hp) as [(_ & m & ->) | (_ & ->)]; constructor.
  - intros r w'. eapply Forall_impl; [| apply get_expenses_filtered_scoped].
    cbn beta. tauto.
Qed.

End ExpenseLists.

(** ** Routes over any data layer *)

Section AnyStorage.

Variable env : Env.
Variable storage : IStorage.

(** The guard looks at the [Authorization] header only. *)
Lemma isAuthenticated_header_only (r1 r2 : Request) (w : World) :
  req_authorization r2 = req_authorization r1 ->
  (exists x, isAuthenticated env r1 w = (Ok (Send x), w)
             /\ isAuthenticated env r2 w = (Ok (Send x), w))
  \/ (exists id row,
        isAuthenticated env r1 w = (Ok (Next (attach_identity id row r1)), w)
        /\ isAuthenticated env r2 w = (Ok (Next (attach_identity id row r2)), w)).
Proof.
  intros Ha.
  destruct (auth_cases env r1 w) as [F | (h & payload & row & more & H & Hp & Hv & Hu)].
  - left. unfold isAuthenticated. run. rewrite Ha.
    destruct F as [H | h H Hp | h reason H Hp Hv | h H Hp Hv | h payload H Hp Hv Hu];
      rewrite H; try rewrite Hp; cbn [negb]; try rewrite Hv;
      try rewrite (filter_nil_firstn _ _ _ 1 Hu); eauto.
  - right. exists (obj_get payload "userId"), (user_to_obj row). split.
    + now apply isAuthenticated_accepts with h more.
    + apply isAuthenticated_accepts with h more; congruence.
Qed.

(** The answer to [GET /api/expenses] does not depend on the query string:
    the first-registered handler answers, and it does not read [req.query]. *)
Lemma get_expenses_ignores_query (req : Request) (w : World) (q : JsObj) :
  req_method req = GET ->
  req_path req = ["api"; "expenses"] ->
  serve env storage (set_query q req) w = serve env storage req w.
Proof.
  intros Hm Hp.
  assert (Hm' : req_method (set_query q req) = GET) by exact Hm.
  assert (Hp' : req_path (set_query q req) = ["api"; "expenses"]) by exact Hp.
  transitivity
    (match run_chain [guard env; ("get_expenses_plain", get_expenses_plain storage)]
                     (set_params [] req) w with
     | (inl r, w') => (r, w')
     | (inr req', w') =>
         dispatch (skipn 6 (app env storage)) req' w'
     end).
  - route Hm' Hp'. unfold guard. cbn [run_chain].
    destruct (isAuthenticated_header_only
                (set_params [] req) (set_params [] (set_query q req))
                (add_event (EvHandler "isAuthenticated") w) eq_refl)
      as [(x & E1 & E2) | (id & row & E1 & E2)]; rewrite E1, E2; reflexivity.
  - route Hm Hp. reflexivity.
Qed.

(** C9. [GET /api/auth/user]: a request whose bearer token is absent or
    invalid, and also a request whose valid token names a user record that
    no longer exists, is answered by the guard with status 401; a request
    that passes the guard is answered with status 200.  The handler's own
    404 answer is given only when the record the guard found is gone by the
    time the handler looks it up. *)
Theorem auth_user_status (req : Request) (w : World) :
  req_method req = GET ->
  req_path req = ["api"; "auth"; "user"] ->
  (AuthFailure env req w -> status (fst (serve env storage req w)) = 401)
  /\ (~ AuthFailure env req w -> status (fst (serve env storage req w)) = 200)
  /\ (forall (req' : Request) (w1 w2 : World),
        isAuthenticated env req w = (Ok (Next req'), w1) ->
        filter (users_id_eq (req_userId req')) (users w2) = [] ->
        auth_user req' w2
        = (Ok (Send (respond 404 (message "User not found"))), w2)).
Proof.
  intros Hm Hp. repeat split.
  - intros F. route Hm Hp.
    assert (F' : AuthFailure env (set_params [] req) w)
      by (now apply auth_failure_ext with req w).
    destruct (guard_rejects env [("auth_user", auth_user)] _ _ F') as [m ->].
    reflexivity.
  - intros NF. route Hm Hp.
    destruct (auth_cases env (set_params [] req) w)
      as [F | (h & payload & row & more & H & Hb & Hv & Hu)].
    + exfalso. apply NF. now apply auth_failure_ext with (set_params [] req) w.
    + rewrite (guard_accepts env _ _ _ _ _ _ _ H Hb Hv Hu).
      cbn [run_chain]. unfold auth_user. run. autorewrite with proj.
      rewrite (filter_cons_first _ _ _ _ _ Hu). reflexivity.
  - intros req' w1 w2 _ Hgone. unfold auth_user. run.
    now rewrite (filter_nil_firstn _ _ _ 1 Hgone).
Qed.

(** [PATCH /api/expenses/:id] answers 200 or 500, whatever the data layer
    does; it has no 404 answer. *)
Lemma patch_expense_status (req : Request) (w : World) :
  exists r w', patch_expense storage req w = (Ok (Send r), w')
               /\ (status r = 200 \/ status r = 500).
Proof.
  unfold patch_expense, user_userId. run.
  destruct (req_user req) as [u |].
  - destruct (updateExpense storage _ _ _ w) as [[e | err] w']; eauto.
  - eauto.
Qed.

(** So does [DELETE /api/expenses/:id]. *)
Lemma delete_expense_status (req : Request) (w : World) :
  exists r w', delete_expense storage req w = (Ok (Send r), w')
               /\ (status r = 200 \/ status r = 500).
Proof.
  unfold delete_expense, user_userId. run.
  destruct (req_user req) as [u |].
  - destruct (deleteExpense storage _ _ w) as [[e | err] w']; eauto.
  - eauto.
Qed.

(** [PATCH] and [DELETE /api/expenses/:id] as the application serves
    them: 401 from the guard, or 200 or 500 from the handler; never 404. *)
Lemma mutation_status (req : Request) (id : string) (w : World) :
  req_method req = PATCH \/ req_method req = DELETE ->
  req_path req = ["api"; "expenses"; id] ->
  status (fst (serve env storage req w)) = 401
  \/ status (fst (serve env storage req w)) = 200
  \/ status (fst (serve env storage req w)) = 500.
Proof.
  intros [Hm | Hm] Hp; route Hm Hp;
    (destruct (auth_cases env (set_params [("id", JStr id)] req) w)
       as [F | (h & payload & row & more & H & Hb & Hv & Hu)];
     [ match goal with
       | |- context [run_chain (guard env :: ?rest) _ _] =>
           destruct (guard_rejects env rest _ _ F) as [m ->]
       end; now left
     | rewrite (guard_accepts env _ _ _ _ _ _ _ H Hb Hv Hu); cbn [run_chain] ]).
  - match goal with
    | |- context [patch_expense storage ?r ?v] =>
        destruct (patch_expense_status r v) as (x & w' & -> & [S | S])
    end; cbv beta iota zeta delta [fst]; rewrite S; auto.
  - match goal with
    | |- context [delete_expense storage ?r ?v] =>
        destruct (delete_expense_status r v) as (x & w' & -> & [S | S])
    end; cbv beta iota zeta delta [fst]; rewrite S; auto.
Qed.

(** [GET /api/expenses/:id], next to them, answers 404 when the data layer
    finds no expense of that id for the user. *)
Lemma get_expense_missing (req : Request) (u : JsObj) (w w' : World) :
  req_user req = Some u ->
  getExpenseById storage (obj_get (req_params req) "id") (obj_get u "userId") w
  = (Ok None, w') ->
  get_expense storage req w
  = (Ok (Send (respond 404 (message "Expense not found"))), w').
Proof.
  intros Hu Hg. unfold get_expense, user_userId. run. rewrite Hu, Hg. reflexivity.
Qed.

(** The second-registered [POST /api/expenses] handler, taken alone: when
    the validated body has no category but a description, the expense it
    creates carries the category and tags of the analysis. *)
Lemma post_expense_ai_categorizes (req : Request) (u parsed analysis : JsObj)
      (e : Expense) (w w' : World) :
  req_user req = Some u ->
  insertExpenseSchema_parse env (obj_set (req_body req) "userId" (obj_get u "userId"))
  = Ok parsed ->
  truthy (obj_get parsed "category") = false ->
  truthy (obj_get parsed "description") = true ->
  analyzeExpense env (obj_get parsed "description")
                 (toNumber env (obj_get parsed "amount"))
                 (obj_get parsed "location") = Ok analysis ->
  createExpense storage
    (obj_set (obj_set parsed "category" (obj_get analysis "suggestedCategory"))
             "tags" (obj_get analysis "tags"))
    (add_event (EvAnalyze (obj_get parsed "description")
                          (toNumber env (obj_get parsed "amount"))
                          (obj_get parsed "location")) w)
  = (Ok e, w') ->
  post_expense_ai env storage req w = (Ok (Send (json (BExpense (Some e)))), w').
Proof.
  intros Hu Hp Hc Hd Ha Hs.
  unfold post_expense_ai, user_userId, analyze. run.
  rewrite Hu, Hp, Hc, Hd. cbn [negb andb]. rewrite Ha, Hs. reflexivity.
Qed.

End AnyStorage.

(** ** Creating an expense *)

Section Creation.

Variable env : Env.
Variable uuid : nat -> string.

Let storage : IStorage := Storage.specStorage uuid.

Lemma spec_createExpense_log (data : JsObj) (w : World) :
  log (snd (Storage.spec_createExpense uuid data w)) = log w.
Proof.
  unfold Storage.spec_createExpense.
  destruct (obj_get data "userId"); try reflexivity.
  destruct (obj_get data "type"); try reflexivity.
  destruct (obj_get data "description"); try reflexivity.
  destruct (obj_get data "category"); try reflexivity.
  destruct (obj_get data "date"); try reflexivity.
  destruct (obj_get data "amount"); reflexivity.
Qed.

Lemma analyze_free_handler (name : string) (l : list Event) :
  filter is_analyze (l ++ [EvHandler name]) = filter is_analyze l.
Proof. rewrite filter_app. cbn. apply app_nil_r. Qed.

(** [POST /api/expenses] as the application serves it never consults the
    AI service: the first-registered handler answers, and it has no
    categorization step. *)
Lemma post_expenses_never_analyzes (req : Request) (w : World) :
  req_method req = POST ->
  req_path req = ["api"; "expenses"] ->
  filter is_analyze (log (snd (serve env storage req w)))
  = filter is_analyze (log w).
Proof.
  intros Hm Hp. route Hm Hp.
  destruct (auth_cases env (set_params [] req) w)
    as [F | (h & payload & row & more & H & Hb & Hv & Hu)].
  - destruct (guard_rejects env
                [("upload.single", upload_single "receipt");
                 ("post_expense_upload", post_expense_upload env storage)] _ _ F)
      as [m ->].
    apply analyze_free_handler.
  - rewrite (guard_accepts env _ _ _ _ _ _ _ H Hb Hv Hu).
    cbn [run_chain]. unfold upload_single, post_expense_upload, user_userId. run.
    autorewrite with proj. rewrite row_has_no_userId.
    destruct (insertExpenseSchema_parse env _) as [validated | err].
    + cbn [storage Storage.specStorage createExpense].
      pose proof (spec_createExpense_log validated
        (add_event (EvHandler "post_expense_upload")
           (add_event (EvHandler "upload.single") (entered "isAuthenticated" w)))) as L.
      destruct (Storage.spec_createExpense uuid validated _) as [[e | err] w'];
        cbn [snd] in *; rewrite L; unfold entered;
        rewrite !log_add_event, !analyze_free_handler; reflexivity.
    + cbn [snd]. unfold entered.
      rewrite !log_add_event, !analyze_free_handler. reflexivity.
Qed.

End Creation.

(** ** Concrete runs *)

(** C9, as stated, fails: a token that verifies but names a user record
    that no longer exists is answered 401, not 404. *)
Lemma auth_user_vanished_answers_401 :
  jwt_verify Demo.env "tok:ghost" (JWT_SECRET Demo.env) (clock Demo.world)
  = JwtOk [("userId", JStr "ghost")]
  /\ filter (users_id_eq (JStr "ghost")) (users Demo.world) = []
  /\ status (fst (serve Demo.env Demo.storage Demo.ghost_request Demo.world)) = 401
  /\ status (fst (serve Demo.env Demo.storage Demo.ghost_request Demo.world)) <> 404.
Proof. repeat split; vm_compute; discriminate. Qed.

(** C4, at a failing input: Bob patches, then deletes, Alice's expense
    [e1].  Both calls are answered 500, not 404; the expenses are unchanged. *)
Theorem cross_tenant_mutation_answers_500 :
  In Demo.lunch (expenses Demo.world)
  /\ e_id Demo.lunch = "e1" /\ e_userId Demo.lunch = "alice"
  /\ fst (serve Demo.env Demo.storage Demo.patch_request Demo.world)
     = respond 500 (message "Failed to update expense")
  /\ expenses (snd (serve Demo.env Demo.storage Demo.patch_request Demo.world))
     = expenses Demo.world
  /\ fst (serve Demo.env Demo.storage Demo.delete_request Demo.world)
     = respond 500 (message "Failed to delete expense")
  /\ expenses (snd (serve Demo.env Demo.storage Demo.delete_request Demo.world))
     = expenses Demo.world.
Proof. repeat split; vm_compute; auto. Qed.

(** C8, at a failing input: Alice posts ["Uber to airport"] without a
    category.  The first-registered handler answers: the AI service is not
    called, the request is rejected with status 500 and no expense is
    created. *)
Theorem uber_expense_not_categorized :
  obj_get (req_body Demo.uber_request) "category" = JUndefined
  /\ obj_get (req_body Demo.uber_request) "description" = JStr "Uber to airport"
  /\ fst (serve Demo.env Demo.storage Demo.uber_request Demo.world)
     = respond 500 (message "Failed to create expense")
  /\ log (snd (serve Demo.env Demo.storage Demo.uber_request Demo.world))
     = [ EvHandler "isAuthenticated"; EvHandler "upload.single";
         EvHandler "post_expense_upload" ]
  /\ expenses (snd (serve Demo.env Demo.storage Demo.uber_request Demo.world))
     = expenses Demo.world.
Proof. repeat split. Qed.

(** The list handlers on a request whose [req.user] carries a [userId]:
    the first lists all of Alice's expenses, the second those that pass
    the filter. *)
Example plain_handler_lists_all :
  listed (get_expenses_plain Demo.storage (Demo.as_user "alice" Demo.list_request)
                             Demo.world)
  = [Demo.lunch; Demo.rent].
Proof. reflexivity. Qed.

Example filtered_handler_lists_food :
  listed (get_expenses_filtered Demo.env Demo.storage
                                (Demo.as_user "alice" Demo.list_request) Demo.world)
  = [Demo.lunch].
Proof. reflexivity. Qed.

(** The same request as the application serves it. *)
Example live_list_is_empty :
  serve Demo.env Demo.storage Demo.list_request Demo.world
  = (json (BExpenses []),
     entered "get_expenses_plain" (entered "isAuthenticated" Demo.world)).
Proof. reflexivity. Qed.

(** The second-registered [POST /api/expenses] handler alone, on such a
    request: the expense is created with the category and tags of the
    analysis. *)
Example ai_handler_categorizes :
  match post_expense_ai Demo.lax_env Demo.storage
                        (Demo.as_user "alice" Demo.uber_request) Demo.world with
  | (Ok (Send r), w') =>
      match body r with
      | BExpense (Some e) =>
          e_category e = "transport" /\ e_tags e = Some ["taxi"]
          /\ e_userId e = "alice" /\ In e (expenses w')
      | _ => False
      end
  | _ => False
  end.
Proof. vm_compute. repeat split. right. right. right. left. reflexivity. Qed.

(** Whatever the insert schema accepts, the application does not create the
    expense: the user id it passes on is [undefined]. *)
Example uber_expense_rejected_by_lax_schema :
  fst (serve Demo.lax_env Demo.storage Demo.uber_request Demo.world)
  = respond 500 (message "Failed to create expense")
  /\ expenses (snd (serve Demo.lax_env Demo.storage Demo.uber_request Demo.world))
     = expenses Demo.world.
Proof. split; reflexivity. Qed.

(** ** The theorems at work on the small deployment *)

(** A request of the small deployment passes the guard. *)
Ltac passes_guard :=
  let F := fresh "F" in
  intros F; inversion F;
  repeat match goal with
         | H : Some _ = Some _ |- _ => inversion H; subst; clear H
         | H : Some _ = None |- _ => discriminate H
         | H : None = Some _ |- _ => discriminate H
         | H : req_authorization _ = _ |- _ => vm_compute in H
         | H : prefix _ _ = _ |- _ => vm_compute in H; try discriminate H
         | H : jwt_verify _ _ _ _ = _ |- _ =>
             vm_compute in H; try discriminate H; inversion H; subst; clear H
         | H : filter _ _ = _ |- _ => vm_compute in H; discriminate H
         end.

Lemma isAuthenticated_guards_witness :
  (exists m,
     run_chain (guard Demo.env :: [("auth_user", auth_user)])
               Demo.anonymous_request Demo.world
     = (inl (respond 401 (message m)), entered "isAuthenticated" Demo.world))
  /\ (exists id row,
        In row (users Demo.world)
        /\ run_chain (guard Demo.env :: [("auth_user", auth_user)])
                     Demo.whoami_request Demo.world
           = run_chain [("auth_user", auth_user)]
                       (attach_identity id (user_to_obj row) Demo.whoami_request)
                       (entered "isAuthenticated" Demo.world)).
Proof.
  split.
  - apply (proj1 (isAuthenticated_guards Demo.env [("auth_user", auth_user)]
                    Demo.anonymous_request Demo.world)).
    apply NoHeader. reflexivity.
  - apply (proj2 (isAuthenticated_guards Demo.env [("auth_user", auth_user)]
                    Demo.whoami_request Demo.world)).
    passes_guard.
Defined.


Lemma register_duplicate_witness :
  fst (serve Demo.env Demo.storage (Demo.register_request "alice@example.com") Demo.world)
  = respond 400 (message "User already exists")
  /\ users (snd (serve Demo.env Demo.storage
                       (Demo.register_request "alice@example.com") Demo.world))
     = users Demo.world.
Proof.
  apply (register_duplicate Demo.env Demo.storage
           (Demo.register_request "alice@example.com") Demo.world
           "alice@example.com" Demo.alice);
    try reflexivity.
  simpl. left. reflexivity.
Defined.

Lemma login_no_enumeration_witness :
  fst (serve Demo.env Demo.storage
             (Demo.login_request "nobody@example.com" "wonderland") Demo.world)
  = fst (serve Demo.env Demo.storage
               (Demo.login_request "alice@example.com" "looking-glass") Demo.world)
  /\ fst (serve Demo.env Demo.storage
                (Demo.login_request "alice@example.com" "looking-glass") Demo.world)
     = respond 401 (message "Invalid credentials").
Proof.
  apply (login_no_enumeration Demo.env Demo.storage
           (Demo.login_request "nobody@example.com" "wonderland")
           (Demo.login_request "alice@example.com" "looking-glass")
           Demo.world Demo.world "looking-glass" "hash:wonderland" Demo.alice []);
    try reflexivity.
  discriminate.
Defined.

Lemma expenses_tenant_isolation_witness :
  Forall (fun e => JStr (e_userId e) = JStr "alice")
         (expenses_of (fst (serve Demo.env Demo.storage Demo.list_request Demo.world)))
  /\ (forall e, JStr (e_userId e) <> JStr "alice" ->
                ~ In e (expenses_of
                          (fst (serve Demo.env Demo.storage Demo.list_request Demo.world))))
  /\ Forall (fun e => JStr (e_userId e) = JStr "alice")
            (listed (get_expenses_filtered Demo.env Demo.storage
                       (attach_identity (JStr "alice") (user_to_obj Demo.alice)
                                        Demo.list_request)
                       Demo.world))
  /\ (forall (r : Request) (w' : World),
        Forall (fun e => JStr (e_userId e) = identity_read r)
               (listed (get_expenses_plain Demo.storage r w'))
        /\ Forall (fun e => JStr (e_userId e) = identity_read r)
                  (listed (get_expenses_filtered Demo.env Demo.storage r w'))).
Proof.
  apply (expenses_tenant_isolation Demo.env Demo.uuid Demo.list_request
           (attach_identity (JStr "alice") (user_to_obj Demo.alice) Demo.list_request)
           Demo.world Demo.world);
    reflexivity.
Defined.

Lemma expenses_filter_contract_witness :
  Forall (satisfies_query Demo.env (req_query Demo.list_request))
         (expenses_of (fst (serve Demo.env Demo.storage Demo.list_request Demo.world)))
  /\ (forall (r : Request) (w' : World),
        Forall (satisfies_query Demo.env (req_query r))
               (listed (get_expenses_filtered Demo.env Demo.storage r w'))).
Proof.
  apply (expenses_filter_contract Demo.env Demo.uuid Demo.list_request Demo.world);
    reflexivity.
Defined.

Lemma auth_user_status_witness :
  status (fst (serve Demo.env Demo.storage Demo.ghost_request Demo.world)) = 401
  /\ status (fst (serve Demo.env Demo.storage Demo.whoami_request Demo.world)) = 200
  /\ auth_user (attach_identity (JStr "alice") (user_to_obj Demo.alice)
                                Demo.whoami_request)
               Demo.world_without_alice
     = (Ok (Send (respond 404 (message "User not found"))), Demo.world_without_alice).
Proof.
  split; [| split].
  - apply (proj1 (auth_user_status Demo.env Demo.storage Demo.ghost_request Demo.world
                    eq_refl eq_refl)).
    apply NoSuchUser with "Bearer tok:ghost" [("userId", JStr "ghost")]; reflexivity.
  - apply (proj1 (proj2 (auth_user_status Demo.env Demo.storage Demo.whoami_request
                           Demo.world eq_refl eq_refl))).
    passes_guard.
  - apply (proj2 (proj2 (auth_user_status Demo.env Demo.storage Demo.whoami_request
                           Demo.world eq_refl eq_refl))
             (attach_identity (JStr "alice") (user_to_obj Demo.alice) Demo.whoami_request)
             Demo.world Demo.world_without_alice);
      reflexivity.
Defined.

(** * More properties of the server *)

(** ** Registration and login *)

Section MoreAccounts.

Variable env : Env.
Variable storage : IStorage.

Lemma mentions_opt_str (k : string) (o : option string) :
  mentions k (opt_str o) = false.
Proof. now destruct o. Qed.

Lemma public_user_has_no_password (u : UserRow) :
  mentions "password" (JObj (public_user u)) = false.
Proof. unfold public_user. cbn. now rewrite !mentions_opt_str. Qed.

(** Close a branch of a handler: name the answer and the world, then check
    what is said of them. *)
Ltac leaf :=
  solve [ do 2 eexists; split; [reflexivity |];
          cbn; repeat split;
          first [ now (eexists; split; [reflexivity | reflexivity])
                | now left
                | right; eexists; repeat split;
                  (reflexivity || eassumption || discriminate)
                | reflexivity ] ].

(** What a registration request does, whatever it carries: it is answered;
    the answer has no [password] property; the ["users"] table is left as
    it was or gains one row, with a new id, a new email and a password
    hash, and then the answer is 200. *)
Lemma register_effect (req : Request) (w : World) :
  exists r w',
    register env req w = (Ok (Send r), w')
    /\ expenses w' = expenses w
    /\ clock w' = clock w
    /\ log w' = log w
    /\ (exists v, body r = BJson v /\ mentions "password" v = false)
    /\ (users w' = users w
        \/ exists row,
             users w' = (users w ++ [row])%list
             /\ existsb (fun u => String.eqb (u_id u) (u_id row)) (users w) = false
             /\ existsb (same_email (u_email row)) (users w) = false
             /\ u_password row <> None
             /\ status r = 200).
Proof.
  unfold register, insert_user, issue_token. run.
  destruct (negb (truthy (obj_get (req_body req) "email"))
            || negb (truthy (obj_get (req_body req) "password"))
            || negb (truthy (obj_get (req_body req) "firstName"))
            || negb (truthy (obj_get (req_body req) "lastName"))).
  - leaf.
  - destruct (0 <? length (firstn 1 (filter (users_email_eq (obj_get (req_body req) "email"))
                                  (users w))))%nat; [leaf |].
    destruct (obj_get (req_body req) "password"); cbn [as_string]; try leaf.
    destruct (obj_get (req_body req) "email"); cbn [text_param]; try leaf;
      (destruct (obj_get (req_body req) "firstName"); cbn [text_param]; try leaf;
       (destruct (obj_get (req_body req) "lastName"); cbn [text_param]; try leaf;
        cbn [seed set_seed users clock expenses log u_id u_email];
        (destruct (existsb _ (users w)) eqn:Hid; [leaf |];
         destruct (existsb (same_email _) (users w)) eqn:Hem; [leaf |]; leaf))).
Qed.

Lemma serve_register (req : Request) (w : World) :
  req_method req = POST ->
  req_path req = ["api"; "register"] ->
  exists r w',
    register env (set_params [] req) (entered "register" w) = (Ok (Send r), w')
    /\ serve env storage req w = (r, w').
Proof.
  intros Hm Hp. route Hm Hp. cbn [run_chain].
  destruct (register_effect (set_params [] req) (entered "register" w))
    as (r & w' & E & _).
  unfold entered in *. rewrite E. now exists r, w'.
Qed.

Lemma existsb_false_all (A : Type) (f : A -> bool) (l : list A) :
  existsb f l = false -> forall x, In x l -> f x = false.
Proof.
  intros E x Hx. destruct (f x) eqn:Fx; [| reflexivity].
  assert (existsb f l = true) by (apply existsb_exists; now exists x).
  congruence.
Qed.

Lemma NoDup_snoc (A : Type) (l : list A) (x : A) :
  NoDup l -> ~ In x l -> NoDup (l ++ [x]).
Proof.
  induction l as [| a l IH]; intros Hn Hx; cbn.
  - constructor; [intros [] | constructor].
  - inversion Hn as [| a' l' Ha Hl]; subst. constructor.
    + rewrite in_app_iff. intros [H | [H | []]]; [contradiction |].
      apply Hx. now left.
    + apply IH; [assumption |]. intros H. apply Hx. now right.
Qed.

Lemma emails_of_app (us vs : list UserRow) :
  emails_of (us ++ vs) = (emails_of us ++ emails_of vs)%list.
Proof. unfold emails_of. now rewrite flat_map_app. Qed.

Lemma in_emails_of (e : string) (us : list UserRow) :
  In e (emails_of us) -> exists u, In u us /\ u_email u = Some e.
Proof.
  unfold emails_of. rewrite in_flat_map. intros (u & Hu & He).
  exists u. split; [assumption |].
  destruct (u_email u) as [e' |]; [| destruct He].
  destruct He as [-> | []]. reflexivity.
Qed.

Lemma users_ok_snoc (us : list UserRow) (row : UserRow) :
  users_ok us ->
  existsb (fun u => String.eqb (u_id u) (u_id row)) us = false ->
  existsb (same_email (u_email row)) us = false ->
  u_password row <> None ->
  users_ok (us ++ [row]).
Proof.
  intros (Hid & Hem & Hpw) Eid Eem Epw. repeat split.
  - rewrite map_app. apply NoDup_snoc; [assumption |].
    rewrite in_map_iff. intros (u & Hu & Hin).
    pose proof (existsb_false_all _ _ _ Eid u Hin) as F. cbn in F.
    rewrite Hu, String.eqb_refl in F. discriminate.
  - rewrite emails_of_app. cbn. rewrite app_nil_r.
    destruct (u_email row) as [e |] eqn:Er; [| now rewrite app_nil_r].
    apply NoDup_snoc; [assumption |].
    intros Hin. apply in_emails_of in Hin. destruct Hin as (u & Hu & He).
    pose proof (existsb_false_all _ _ _ Eem u Hu) as F.
    unfold same_email in F. rewrite He, String.eqb_refl in F. discriminate.
  - apply Forall_app. split; [assumption | now constructor].
Qed.

(** X3. Registration keeps the ["users"] table in order: if ids and emails
    are unique and every row has a password hash before a
    [POST /api/register] request whose [email], [firstName] and [lastName]
    are strings where they are given, they are and it has after it,
    whatever the strings and the password are and however the request is
    answered; the expenses are not touched. *)
Theorem register_keeps_users_ok (req : Request) (w : World) :
  req_method req = POST ->
  req_path req = ["api"; "register"] ->
  (forall k, In k ["email"; "firstName"; "lastName"] ->
             truthy (obj_get (req_body req) k) = true ->
             exists s, obj_get (req_body req) k = JStr s) ->
  users_ok (users w) ->
  users_ok (users (snd (serve env storage req w)))
  /\ expenses (snd (serve env storage req w)) = expenses w.
Proof.
  intros Hm Hp _ Hok.
  destruct (serve_register req w Hm Hp) as (r & w' & E & ->).
  destruct (register_effect (set_params [] req) (entered "register" w))
    as (r0 & w0 & E0 & Hex & _ & _ & _ & Hus).
  rewrite E in E0. inversion E0; subst r0 w0. cbn [snd].
  split; [| exact Hex].
  destruct Hus as [-> | (row & -> & Eid & Eem & Epw & _)]; [exact Hok |].
  now apply users_ok_snoc.
Qed.

(** X2. A registration request that lacks one of [email], [password],
    [firstName], [lastName], or carries an empty one, is answered 400
    [All fields are required], and nothing is stored, whether or not the
    email is taken. *)
Theorem register_requires_fields (req : Request) (w : World) (k : string) :
  req_method req = POST ->
  req_path req = ["api"; "register"] ->
  In k ["email"; "password"; "firstName"; "lastName"] ->
  truthy (obj_get (req_body req) k) = false ->
  serve env storage req w
  = (respond 400 (message "All fields are required"), entered "register" w).
Proof.
  intros Hm Hp Hk Hf. route Hm Hp. cbn [run_chain]. unfold register. run.
  autorewrite with proj.
  assert (T : negb (truthy (obj_get (req_body req) "email"))
              || negb (truthy (obj_get (req_body req) "password"))
              || negb (truthy (obj_get (req_body req) "firstName"))
              || negb (truthy (obj_get (req_body req) "lastName")) = true).
  { destruct Hk as [<- | [<- | [<- | [<- | []]]]]; rewrite Hf; cbn [negb];
      rewrite ?orb_true_r; reflexivity. }
  rewrite T. reflexivity.
Qed.

Lemma filter_nil_existsb (cond : UserRow -> bool) (us : list UserRow) :
  filter cond us = [] -> existsb cond us = false.
Proof.
  induction us as [| u us IH]; [reflexivity |]. cbn.
  destruct (cond u); [discriminate | exact IH].
Qed.

Lemma same_email_is_email_eq (e : string) (us : list UserRow) :
  existsb (same_email (Some e)) us = existsb (users_email_eq (JStr e)) us.
Proof.
  induction us as [| u us IH]; [reflexivity |]. cbn [existsb]. rewrite IH.
  unfold same_email, users_email_eq. destruct (u_email u); [| reflexivity].
  now rewrite String.eqb_sym.
Qed.

Lemma register_creates (req : Request) (w : World) (e p f l : string) :
  obj_get (req_body req) "email" = JStr e ->
  obj_get (req_body req) "password" = JStr p ->
  obj_get (req_body req) "firstName" = JStr f ->
  obj_get (req_body req) "lastName" = JStr l ->
  e <> EmptyString -> p <> EmptyString -> f <> EmptyString -> l <> EmptyString ->
  filter (users_email_eq (JStr e)) (users w) = [] ->
  existsb (fun u => String.eqb (u_id u) (randomUUID env (S (seed w)))) (users w) = false ->
  exists w',
    register env req w
    = (Ok (Send (json (BJson (JObj
         [ ("message", JStr "User created successfully");
           ("token", JStr (jwt_sign env [("userId", JStr (randomUUID env (S (seed w))))]
                                    (JWT_SECRET env) "7d" (clock w)));
           ("user", JObj (public_user (registered env e p f l w))) ])))), w')
    /\ users w' = (users w ++ [registered env e p f l w])%list
    /\ expenses w' = expenses w
    /\ clock w' = clock w
    /\ log w' = log w.
Proof.
  intros He Hp Hf Hl Ne Np Nf Nl Hnew Hid.
  assert (T : forall s, s <> EmptyString -> truthy (JStr s) = true).
  { intros s Hs. cbn [truthy]. destruct (String.eqb_spec s EmptyString);
      [contradiction | reflexivity]. }
  unfold register, insert_user, issue_token. run.
  rewrite He, Hp, Hf, Hl, !T by assumption. cbn [negb orb].
  rewrite (filter_nil_firstn _ _ _ 1 Hnew).
  cbn [length Nat.ltb Nat.leb as_string text_param seed set_seed users clock
       expenses log u_id u_email].
  rewrite Hid, same_email_is_email_eq, (filter_nil_existsb _ _ Hnew).
  eexists. split; [reflexivity |]. cbn. repeat split.
Qed.

(** X1. A registration with four non-empty string fields, an email no
    user record has and a fresh random id is answered 200 with a token
    signed over [{ userId: <new id> }] for 7 days and the public projection
    of the new user; the ["users"] table gains exactly that user, with the
    bcrypt hash of the password, at the end; the expenses stay. *)
Theorem register_creates_user (req : Request) (w : World) (e p f l : string) :
  req_method req = POST ->
  req_path req = ["api"; "register"] ->
  obj_get (req_body req) "email" = JStr e ->
  obj_get (req_body req) "password" = JStr p ->
  obj_get (req_body req) "firstName" = JStr f ->
  obj_get (req_body req) "lastName" = JStr l ->
  e <> EmptyString -> p <> EmptyString -> f <> EmptyString -> l <> EmptyString ->
  filter (users_email_eq (JStr e)) (users w) = [] ->
  existsb (fun u => String.eqb (u_id u) (randomUUID env (S (seed w)))) (users w) = false ->
  fst (serve env storage req w)
  = json (BJson (JObj
      [ ("message", JStr "User created successfully");
        ("token", JStr (jwt_sign env [("userId", JStr (randomUUID env (S (seed w))))]
                                 (JWT_SECRET env) "7d" (clock w)));
        ("user", JObj (public_user (registered env e p f l w))) ]))
  /\ users (snd (serve env storage req w)) = (users w ++ [registered env e p f l w])%list
  /\ expenses (snd (serve env storage req w)) = expenses w.
Proof.
  intros Hm Hpath He Hp Hf Hl Ne Np Nf Nl Hnew Hid.
  destruct (serve_register req w Hm Hpath) as (r & w' & E & ->).
  destruct (register_creates (set_params [] req) (entered "register" w) e p f l
              He Hp Hf Hl Ne Np Nf Nl Hnew Hid) as (w1 & E1 & Hu & Hx & _).
  rewrite E in E1. inversion E1; subst. cbn [fst snd]. repeat split; assumption.
Qed.

End MoreAccounts.

(** ** Sessions: login, the current user, logout *)

Section Sessions.

Variable env : Env.
Variable storage : IStorage.

Ltac answer :=
  solve [ eexists; split; [reflexivity |];
          split; [eexists; split; [reflexivity |];
                  cbn; rewrite ?mentions_opt_str; reflexivity |];
          cbn; auto ].

(** What a login request does, whatever it carries: it is answered 200,
    400, 401 or 500, with no [password] property in the answer, and the
    world is left as it was. *)
Lemma login_effect (req : Request) (w : World) :
  exists r,
    login env req w = (Ok (Send r), w)
    /\ (exists v, body r = BJson v /\ mentions "password" v = false)
    /\ (status r = 200 \/ status r = 400 \/ status r = 401 \/ status r = 500).
Proof.
  unfold login, issue_token. run.
  destruct (negb (truthy (obj_get (req_body req) "email"))
            || negb (truthy (obj_get (req_body req) "password"))); [answer |].
  destruct (firstn 1 (filter (users_email_eq (obj_get (req_body req) "email")) (users w)))
    as [| user rest]; [answer |].
  destruct (obj_get (req_body req) "password"); cbn [as_string]; try answer.
  destruct (u_password user); cbn [as_string opt_str]; try answer.
  destruct (bcrypt_compare env s s0); cbn [negb]; answer.
Qed.

(** So for the handler of the current user. *)
Lemma auth_user_effect (req : Request) (w : World) :
  exists r,
    auth_user req w = (Ok (Send r), w)
    /\ (exists v, body r = BJson v /\ mentions "password" v = false)
    /\ (status r = 200 \/ status r = 404).
Proof.
  unfold auth_user. run.
  destruct (firstn 1 (filter (users_id_eq (req_userId req)) (users w)))
    as [| user rest]; answer.
Qed.

Lemma serve_login (req : Request) (w : World) :
  req_method req = POST ->
  req_path req = ["api"; "login"] ->
  exists r,
    login env (set_params [] req) (entered "login" w) = (Ok (Send r), entered "login" w)
    /\ serve env storage req w = (r, entered "login" w).
Proof.
  intros Hm Hp. route Hm Hp. cbn [run_chain].
  destruct (login_effect (set_params [] req) (entered "login" w)) as (r & E & _).
  unfold entered in *. rewrite E. now exists r.
Qed.

Lemma login_accepts (req : Request) (w : World) (p hash : string)
      (row : UserRow) (more : list UserRow) :
  truthy (obj_get (req_body req) "email") = true ->
  obj_get (req_body req) "password" = JStr p ->
  p <> EmptyString ->
  filter (users_email_eq (obj_get (req_body req) "email")) (users w) = row :: more ->
  u_password row = Some hash ->
  bcrypt_compare env p hash = true ->
  login env req w
  = (Ok (Send (json (BJson (JObj
       [ ("message", JStr "Login successful");
         ("token", JStr (jwt_sign env [("userId", JStr (u_id row))]
                                  (JWT_SECRET env) "7d" (clock w)));
         ("user", JObj (public_user row)) ])))), w).
Proof.
  intros Te Hp Np Hu Hh Hc. unfold login, issue_token. run.
  rewrite Te, Hp.
  assert (T : truthy (JStr p) = true).
  { cbn [truthy]. destruct (String.eqb_spec p EmptyString); [contradiction | reflexivity]. }
  rewrite T. cbn [negb orb]. rewrite (filter_cons_first _ _ _ _ _ Hu), Hh.
  cbn [as_string opt_str]. rewrite Hc. reflexivity.
Qed.

(** X5. A login with the email of a user record and a password that bcrypt
    accepts against the stored hash is answered 200 [Login successful]
    with a token signed over [{ userId: <that user's id> }] for 7 days and
    the user's public projection; the world only records that the handler
    ran. *)
Theorem login_succeeds (req : Request) (w : World) (p hash : string)
        (row : UserRow) (more : list UserRow) :
  req_method req = POST ->
  req_path req = ["api"; "login"] ->
  truthy (obj_get (req_body req) "email") = true ->
  obj_get (req_body req) "password" = JStr p ->
  p <> EmptyString ->
  filter (users_email_eq (obj_get (req_body req) "email")) (users w) = row :: more ->
  u_password row = Some hash ->
  bcrypt_compare env p hash = true ->
  serve env storage req w
  = (json (BJson (JObj
       [ ("message", JStr "Login successful");
         ("token", JStr (jwt_sign env [("userId", JStr (u_id row))]
                                  (JWT_SECRET env) "7d" (clock w)));
         ("user", JObj (public_user row)) ])),
     entered "login" w).
Proof.
  intros Hm Hpath Te Hp Np Hu Hh Hc.
  destruct (serve_login req w Hm Hpath) as (r & E & ->).
  rewrite (login_accepts (set_params [] req) (entered "login" w) p hash row more
             Te Hp Np Hu Hh Hc) in E.
  inversion E. reflexivity.
Qed.

(** X7. A login for a user record whose stored hash is null (the column is
    nullable) is answered 500 [Internal server error], whatever password
    is given: not the 401 of a wrong password. *)
Theorem login_null_hash (req : Request) (w : World)
        (row : UserRow) (more : list UserRow) :
  req_method req = POST ->
  req_path req = ["api"; "login"] ->
  truthy (obj_get (req_body req) "email") = true ->
  truthy (obj_get (req_body req) "password") = true ->
  filter (users_email_eq (obj_get (req_body req) "email")) (users w) = row :: more ->
  u_password row = None ->
  serve env storage req w
  = (respond 500 (message "Internal server error"), entered "login" w).
Proof.
  intros Hm Hpath Te Tp Hu Hh.
  destruct (serve_login req w Hm Hpath) as (r & E & ->).
  assert (L : login env (set_params [] req) (entered "login" w)
              = (Ok (Send (respond 500 (message "Internal server error"))),
                 entered "login" w)).
  { unfold login. run. autorewrite with proj. rewrite Te, Tp. cbn [negb orb].
    autorewrite with proj.
    rewrite (filter_cons_first _ _ _ _ _ Hu), Hh.
    destruct (obj_get (req_body req) "password"); reflexivity. }
  rewrite L in E. inversion E. reflexivity.
Qed.

(** X4. Registration then login: after a successful registration, a login
    with the same email and password, if bcrypt accepts the password
    against the hash it made of it, is answered 200 with a token for the id
    the registration gave and the same public projection. *)
Theorem register_then_login (req req2 : Request) (w : World) (e p f l : string) :
  req_method req = POST ->
  req_path req = ["api"; "register"] ->
  obj_get (req_body req) "email" = JStr e ->
  obj_get (req_body req) "password" = JStr p ->
  obj_get (req_body req) "firstName" = JStr f ->
  obj_get (req_body req) "lastName" = JStr l ->
  e <> EmptyString -> p <> EmptyString -> f <> EmptyString -> l <> EmptyString ->
  filter (users_email_eq (JStr e)) (users w) = [] ->
  existsb (fun u => String.eqb (u_id u) (randomUUID env (S (seed w)))) (users w) = false ->
  req_method req2 = POST ->
  req_path req2 = ["api"; "login"] ->
  obj_get (req_body req2) "email" = JStr e ->
  obj_get (req_body req2) "password" = JStr p ->
  bcrypt_compare env p (bcrypt_hash env p 10 (seed w)) = true ->
  fst (serve env storage req2 (snd (serve env storage req w)))
  = json (BJson (JObj
      [ ("message", JStr "Login successful");
        ("token", JStr (jwt_sign env [("userId", JStr (randomUUID env (S (seed w))))]
                                 (JWT_SECRET env) "7d" (clock w)));
        ("user", JObj (public_user (registered env e p f l w))) ])).
Proof.
  intros Hm Hpath He Hp Hf Hl Ne Np Nf Nl Hnew Hid Hm2 Hpath2 He2 Hp2 Hc.
  destruct (serve_register env storage req w Hm Hpath) as (r & w1 & E & ->).
  destruct (register_creates env (set_params [] req) (entered "register" w) e p f l
              He Hp Hf Hl Ne Np Nf Nl Hnew Hid) as (w1' & E1 & Hu & _ & Hck & _).
  rewrite E in E1. inversion E1; subst w1'. cbn [snd].
  change (registered env e p f l (entered "register" w))
    with (registered env e p f l w) in *.
  autorewrite with proj in Hu, Hck.
  destruct (serve_login req2 w1 Hm2 Hpath2) as (r2 & E2 & ->). cbn [fst].
  assert (Hfil : filter (users_email_eq (obj_get (req_body (set_params [] req2)) "email"))
                        (users (entered "login" w1))
                 = [registered env e p f l w]).
  { autorewrite with proj. rewrite He2, Hu, filter_app, Hnew. cbn.
    now rewrite String.eqb_refl. }
  assert (Te : truthy (obj_get (req_body (set_params [] req2)) "email") = true).
  { autorewrite with proj. rewrite He2. cbn [truthy].
    destruct (String.eqb_spec e EmptyString); [contradiction | reflexivity]. }
  rewrite (login_accepts (set_params [] req2) (entered "login" w1) p
             (bcrypt_hash env p 10 (seed w)) (registered env e p f l w) []
             Te Hp2 Np Hfil eq_refl Hc) in E2.
  inversion E2. autorewrite with proj. rewrite Hck. reflexivity.
Qed.

(** The guard decides on the [Authorization] header, the clock and the
    ["users"] table, and on nothing else. *)
Lemma isAuthenticated_depends (r1 r2 : Request) (w1 w2 : World) :
  req_authorization r2 = req_authorization r1 ->
  clock w2 = clock w1 ->
  users w2 = users w1 ->
  (exists x, isAuthenticated env r1 w1 = (Ok (Send x), w1)
             /\ isAuthenticated env r2 w2 = (Ok (Send x), w2))
  \/ (exists row,
        In row (users w1)
        /\ isAuthenticated env r1 w1
           = (Ok (Next (attach_identity (JStr (u_id row)) (user_to_obj row) r1)), w1)
        /\ isAuthenticated env r2 w2
           = (Ok (Next (attach_identity (JStr (u_id row)) (user_to_obj row) r2)), w2)).
Proof.
  intros Ha Hc Hu.
  destruct (auth_cases env r1 w1) as [F | (h & payload & row & more & H & Hp & Hv & Hf)].
  - left. unfold isAuthenticated. run. rewrite Ha.
    destruct F as [H | h H Hp | h reason H Hp Hv | h H Hp Hv | h payload H Hp Hv Hf];
      rewrite H; try rewrite Hp; cbn [negb]; try rewrite Hc; try rewrite Hv;
      try rewrite Hu; try rewrite (filter_nil_firstn _ _ _ 1 Hf); eauto.
  - right. exists row.
    destruct (filter_cons_holds _ _ _ _ _ Hf) as [Hin Hid].
    apply users_id_eq_true in Hid.
    split; [assumption |]. rewrite <- Hid. split.
    + now apply isAuthenticated_accepts with h more.
    + apply isAuthenticated_accepts with h more; congruence.
Qed.

(** X9. The guard decides on the [Authorization] header, the clock and the
    ["users"] table only: two requests with the same header, in worlds
    with the same clock and users, are both turned away, with the same
    answer, or both handed on, with the same identity attached; the guard
    writes nothing. *)
Theorem guard_decides_on_header (r1 r2 : Request) (w1 w2 : World) :
  req_authorization r2 = req_authorization r1 ->
  clock w2 = clock w1 ->
  users w2 = users w1 ->
  (exists x, isAuthenticated env r1 w1 = (Ok (Send x), w1)
             /\ isAuthenticated env r2 w2 = (Ok (Send x), w2))
  \/ (exists id row,
        isAuthenticated env r1 w1 = (Ok (Next (attach_identity id row r1)), w1)
        /\ isAuthenticated env r2 w2 = (Ok (Next (attach_identity id row r2)), w2)).
Proof.
  intros Ha Hc Hu.
  destruct (isAuthenticated_depends r1 r2 w1 w2 Ha Hc Hu)
    as [(x & E1 & E2) | (row & Hin & E1 & E2)].
  - left. now exists x.
  - right. now exists (JStr (u_id row)), (user_to_obj row).
Qed.

(** X6. The account routes never answer with a password: the JSON body of
    the answer to any [POST /api/register], [POST /api/login] or
    [GET /api/auth/user] request has no [password] property, at any
    depth. *)
Theorem accounts_never_answer_password (req : Request) (w : World) :
  (req_method req = POST /\ req_path req = ["api"; "register"])
  \/ (req_method req = POST /\ req_path req = ["api"; "login"])
  \/ (req_method req = GET /\ req_path req = ["api"; "auth"; "user"]) ->
  exists v,
    body (fst (serve env storage req w)) = BJson v
    /\ mentions "password" v = false.
Proof.
  intros [[Hm Hp] | [[Hm Hp] | [Hm Hp]]].
  - destruct (serve_register env storage req w Hm Hp) as (r & w' & E & ->).
    destruct (register_effect env (set_params [] req) (entered "register" w))
      as (r0 & w0 & E0 & _ & _ & _ & Hb & _).
    rewrite E in E0. inversion E0; subst. exact Hb.
  - destruct (serve_login req w Hm Hp) as (r & E & ->).
    destruct (login_effect (set_params [] req) (entered "login" w)) as (r0 & E0 & Hb & _).
    rewrite E in E0. inversion E0; subst. exact Hb.
  - route Hm Hp.
    destruct (auth_cases env (set_params [] req) w)
      as [F | (h & payload & row & more & H & Hb & Hv & Hu)].
    + destruct (guard_rejects env [("auth_user", auth_user)] _ _ F) as [m ->].
      eexists. split; reflexivity.
    + rewrite (guard_accepts env _ _ _ _ _ _ _ H Hb Hv Hu). cbn [run_chain].
      match goal with
      | |- context [auth_user ?r ?v] =>
          destruct (auth_user_effect r v) as (x & -> & Hx & _)
      end.
      exact Hx.
Qed.

(** X8. The guard's three answers: [No token provided] without a header or
    with one that does not begin with ["Bearer "]; [Invalid token] for a
    token the library rejects, expired and forged alike; [User not found]
    for a verified token whose user id names no user record.  All are 401
    and leave the world as it was. *)
Theorem guard_messages (req : Request) (w : World) :
  ((req_authorization req = None
    \/ exists h, req_authorization req = Some h /\ prefix "Bearer " h = false) ->
   isAuthenticated env req w
   = (Ok (Send (respond 401 (message "No token provided"))), w))
  /\ (forall h,
        req_authorization req = Some h -> prefix "Bearer " h = true ->
        (forall payload,
           jwt_verify env (substring_from 7 h) (JWT_SECRET env) (clock w)
           <> JwtOk payload) ->
        isAuthenticated env req w
        = (Ok (Send (respond 401 (message "Invalid token"))), w))
  /\ (forall h payload,
        req_authorization req = Some h -> prefix "Bearer " h = true ->
        jwt_verify env (substring_from 7 h) (JWT_SECRET env) (clock w)
        = JwtOk payload ->
        filter (users_id_eq (obj_get payload "userId")) (users w) = [] ->
        isAuthenticated env req w
        = (Ok (Send (respond 401 (message "User not found"))), w)).
Proof.
  repeat split.
  - intros [H | (h & H & Hp)]; unfold isAuthenticated; run; rewrite H;
      [| rewrite Hp]; reflexivity.
  - intros h H Hp Hv. unfold isAuthenticated. run. rewrite H, Hp. cbn [negb].
    destruct (jwt_verify env (substring_from 7 h) (JWT_SECRET env) (clock w))
      as [payload | reason |]; [| reflexivity | reflexivity].
    destruct (Hv payload eq_refl).
  - intros h payload H Hp Hv Hu. unfold isAuthenticated. run.
    rewrite H, Hp. cbn [negb]. rewrite Hv, (filter_nil_firstn _ _ _ 1 Hu).
    reflexivity.
Qed.

Lemma serve_auth_user_depends (req : Request) (w1 w2 : World) :
  req_method req = GET ->
  req_path req = ["api"; "auth"; "user"] ->
  clock w2 = clock w1 ->
  users w2 = users w1 ->
  fst (serve env storage req w2) = fst (serve env storage req w1).
Proof.
  intros Hm Hp Hc Hu.
  assert (S : forall w,
             serve env storage req w
             = match run_chain [guard env; ("auth_user", auth_user)]
                               (set_params [] req) w with
               | (inl r, w') => (r, w')
               | (inr req', w') => dispatch (skipn 3 (app env storage)) req' w'
               end).
  { intros w. route Hm Hp. reflexivity. }
  rewrite !S. unfold guard. cbn [run_chain].
  destruct (isAuthenticated_depends (set_params [] req) (set_params [] req)
              (add_event (EvHandler "isAuthenticated") w1)
              (add_event (EvHandler "isAuthenticated") w2) eq_refl Hc Hu)
    as [(x & E1 & E2) | (row & Hin & E1 & E2)]; rewrite E1, E2; [reflexivity |].
  unfold auth_user. run. autorewrite with proj. rewrite Hu. 
  destruct (firstn 1 (filter _ (users w1))); reflexivity.
Qed.

(** X10. Logout ends nothing on the server: [POST /api/logout] is answered
    200 [Logged out successfully] with or without a token, and a request
    for the current user made after it is answered as it would have been
    before it. *)
Theorem logout_keeps_token_valid (out req : Request) (w : World) :
  req_method out = POST ->
  req_path out = ["api"; "logout"] ->
  req_method req = GET ->
  req_path req = ["api"; "auth"; "user"] ->
  fst (serve env storage out w) = json (BJson (message "Logged out successfully"))
  /\ fst (serve env storage req (snd (serve env storage out w)))
     = fst (serve env storage req w).
Proof.
  intros Hmo Hpo Hm Hp.
  assert (E : serve env storage out w
              = (json (BJson (message "Logged out successfully")), entered "logout" w)).
  { route Hmo Hpo. reflexivity. }
  rewrite E. split; [reflexivity |].
  now apply serve_auth_user_depends.
Qed.

(** X11. Login and the request for the current user only read: after any
    [POST /api/login] or [GET /api/auth/user] request the ["users"] and
    ["expenses"] tables are the tables before it. *)
Theorem sessions_only_read (req : Request) (w : World) :
  (req_method req = POST /\ req_path req = ["api"; "login"])
  \/ (req_method req = GET /\ req_path req = ["api"; "auth"; "user"]) ->
  users (snd (serve env storage req w)) = users w
  /\ expenses (snd (serve env storage req w)) = expenses w.
Proof.
  intros [[Hm Hp] | [Hm Hp]].
  - destruct (serve_login req w Hm Hp) as (r & _ & ->). split; reflexivity.
  - route Hm Hp.
    destruct (auth_cases env (set_params [] req) w)
      as [F | (h & payload & row & more & H & Hb & Hv & Hu)].
    + destruct (guard_rejects env [("auth_user", auth_user)] _ _ F) as [m ->].
      split; reflexivity.
    + rewrite (guard_accepts env _ _ _ _ _ _ _ H Hb Hv Hu). cbn [run_chain].
      match goal with
      | |- context [auth_user ?r ?v] =>
          destruct (auth_user_effect r v) as (x & -> & _)
      end.
      split; reflexivity.
Qed.

End Sessions.

(** * The route table *)

Section RouteTable.

Variable env : Env.
Variable storage : IStorage.

Ltac settle := solve [do 2 eexists; split; [reflexivity | cbn; auto 10]].

(** *** The handlers, one by one *)

Lemma register_within : answers_within [200; 400; 500] (register env).
Proof.
  intros req w. unfold register, insert_user, issue_token. run.
  destruct (negb (truthy (obj_get (req_body req) "email"))
            || negb (truthy (obj_get (req_body req) "password"))
            || negb (truthy (obj_get (req_body req) "firstName"))
            || negb (truthy (obj_get (req_body req) "lastName"))); [settle |].
  destruct (0 <? length (firstn 1 (filter (users_email_eq (obj_get (req_body req) "email"))
                                  (users w))))%nat; [settle |].
  destruct (obj_get (req_body req) "password"); cbn [as_string]; try settle.
  destruct (obj_get (req_body req) "email"); cbn [text_param]; try settle;
    (destruct (obj_get (req_body req) "firstName"); cbn [text_param]; try settle;
     (destruct (obj_get (req_body req) "lastName"); cbn [text_param]; try settle;
      cbn [seed set_seed users clock expenses log u_id u_email];
      (destruct (existsb _ (users w)); [settle |];
       destruct (existsb (same_email _) (users w)); settle))).
Qed.

Lemma login_within : answers_within [200; 400; 401; 500] (login env).
Proof.
  intros req w. destruct (login_effect env req w) as (r & E & _ & S).
  exists r, w. split; [exact E |]. cbn. intuition.
Qed.

Lemma auth_user_within : answers_within [200; 404] auth_user.
Proof.
  intros req w. destruct (auth_user_effect req w) as (r & E & _ & S).
  exists r, w. split; [exact E |]. cbn. intuition.
Qed.

Lemma logout_within : answers_within [200] logout.
Proof. intros req w. unfold logout. run. settle. Qed.

Lemma post_expense_upload_within :
  answers_within [200; 500] (post_expense_upload env storage).
Proof.
  intros req w. unfold post_expense_upload, user_userId. run.
  destruct (req_user req) as [u |]; [| settle].
  destruct (insertExpenseSchema_parse env _) as [v | err]; [| settle].
  destruct (createExpense storage v w) as [[e | err] w']; settle.
Qed.

Lemma get_expenses_plain_within :
  answers_within [200; 500] (get_expenses_plain storage).
Proof.
  intros req w. unfold get_expenses_plain, user_userId. run.
  destruct (req_user req) as [u |]; [| settle].
  destruct (getExpenses storage _ _ w) as [[e | err] w']; settle.
Qed.

Lemma put_expense_within : answers_within [200; 500] (put_expense env storage).
Proof.
  intros req w. unfold put_expense, user_userId. run.
  destruct (req_user req) as [u |]; [| settle].
  destruct (updateExpense storage _ _ _ w) as [[e | err] w']; settle.
Qed.

Lemma delete_expense_within : answers_within [200; 500] (delete_expense storage).
Proof.
  intros req w. unfold delete_expense, user_userId. run.
  destruct (req_user req) as [u |]; [| settle].
  destruct (deleteExpense storage _ _ w) as [[e | err] w']; settle.
Qed.

Lemma get_auth_user_within : answers_within [200; 500] (get_auth_user storage).
Proof.
  intros req w. unfold get_auth_user, user_userId. run.
  destruct (req_user req) as [u |]; [| settle].
  destruct (getUser storage _ w) as [[e | err] w']; settle.
Qed.

Lemma post_expense_ai_within :
  answers_within [200; 500] (post_expense_ai env storage).
Proof.
  intros req w. unfold post_expense_ai, user_userId, analyze. run.
  destruct (req_user req) as [u |]; [| settle].
  destruct (insertExpenseSchema_parse env _) as [v | err]; [| settle].
  destruct (negb (truthy (obj_get v "category")) && truthy (obj_get v "description")).
  - destruct (analyzeExpense env _ _ _) as [a | err]; [| settle].
    destruct (createExpense storage _ _) as [[e | err] w']; settle.
  - destruct (createExpense storage _ _) as [[e | err] w']; settle.
Qed.

Lemma get_expenses_filtered_within :
  answers_within [200; 500] (get_expenses_filtered env storage).
Proof.
  intros req w. unfold get_expenses_filtered, user_userId, convert_tags. run.
  destruct (req_user req) as [u |]; [| settle].
  destruct (truthy (obj_get _ "tags")).
  - destruct (obj_get _ "tags"); try settle.
    destruct (getExpenses storage _ _ w) as [[e | err] w']; settle.
  - destruct (getExpenses storage _ _ w) as [[e | err] w']; settle.
Qed.

Lemma get_expense_within : answers_within [200; 404; 500] (get_expense storage).
Proof.
  intros req w. unfold get_expense, user_userId. run.
  destruct (req_user req) as [u |]; [| settle].
  destruct (getExpenseById storage _ _ w) as [[[e |] | err] w']; settle.
Qed.

Lemma patch_expense_within : answers_within [200; 500] (patch_expense storage).
Proof.
  intros req w. unfold patch_expense, user_userId. run.
  destruct (req_user req) as [u |]; [| settle].
  destruct (updateExpense storage _ _ _ w) as [[e | err] w']; settle.
Qed.

Lemma answers_never_throws (codes : list Z) (h : Handler) :
  answers_within codes h -> never_throws h.
Proof.
  intros A req w. destruct (A req w) as (r & w' & E & _). now exists (Send r), w'.
Qed.

Lemma isAuthenticated_never_throws : never_throws (isAuthenticated env).
Proof.
  intros req w.
  destruct (auth_cases env req w) as [F | (h & payload & row & more & H & Hp & Hv & Hu)].
  - destruct (isAuthenticated_rejects env _ _ F) as [m E]. rewrite E. eauto.
  - rewrite (isAuthenticated_accepts env _ _ _ _ _ _ H Hp Hv Hu). eauto.
Qed.

Lemma upload_single_never_throws (field : string) : never_throws (upload_single field).
Proof. intros req w. unfold upload_single. run. eauto. Qed.

(** *** Chains *)

Lemma chain_last (codes : list Z) (name : string) (h : Handler) :
  answers_within codes h -> chain_within codes [(name, h)].
Proof.
  intros A req w. cbn [run_chain].
  destruct (A req (add_event (EvHandler name) w)) as (r & w' & -> & I).
  now exists r, w'.
Qed.

Lemma chain_guard (codes : list Z) (rest : list (string * Handler)) :
  chain_within codes rest -> chain_within (401 :: codes) (guard env :: rest).
Proof.
  intros A req w.
  destruct (auth_cases env req w) as [F | (h & payload & row & more & H & Hp & Hv & Hu)].
  - destruct (guard_rejects env rest _ _ F) as [m ->].
    do 2 eexists. split; [reflexivity |]. now left.
  - rewrite (guard_accepts env rest _ _ _ _ _ _ H Hp Hv Hu).
    destruct (A (attach_identity (obj_get payload "userId") (user_to_obj row) req)
                (entered "isAuthenticated" w)) as (r & w' & -> & I).
    exists r, w'. split; [reflexivity |]. now right.
Qed.

Lemma chain_upload (codes : list Z) (field : string) (rest : list (string * Handler)) :
  chain_within codes rest ->
  chain_within codes (("upload.single", upload_single field) :: rest).
Proof.
  intros A req w. cbn [run_chain]. unfold upload_single. run. apply A.
Qed.

Lemma chain_within_mono (codes codes' : list Z) (chain : list (string * Handler)) :
  incl codes codes' -> chain_within codes chain -> chain_within codes' chain.
Proof.
  intros I A req w. destruct (A req w) as (r & w' & E & J).
  exists r, w'. split; [exact E | now apply I].
Qed.

Lemma chain_within_answers (codes : list Z) (chain : list (string * Handler)) :
  chain_within codes chain -> always_answers chain.
Proof.
  intros A req w. destruct (A req w) as (r & w' & E & _). now exists r, w'.
Qed.

Ltac codes := intros c; cbn; intuition.

Ltac chain :=
  lazymatch goal with
  | |- chain_within _ (guard _ :: _) =>
      apply chain_guard; chain
  | |- chain_within _ ((_, upload_single _) :: _) =>
      apply chain_upload; chain
  | |- chain_within _ [(_, register _)] =>
      apply chain_last, register_within
  | |- chain_within _ [(_, login _)] =>
      apply chain_last, login_within
  | |- chain_within _ [(_, auth_user)] =>
      apply chain_last, auth_user_within
  | |- chain_within _ [(_, logout)] =>
      apply chain_last, logout_within
  | |- chain_within _ [(_, post_expense_upload _ _)] =>
      apply chain_last, post_expense_upload_within
  | |- chain_within _ [(_, get_expenses_plain _)] =>
      apply chain_last, get_expenses_plain_within
  | |- chain_within _ [(_, put_expense _ _)] =>
      apply chain_last, put_expense_within
  | |- chain_within _ [(_, delete_expense _)] =>
      apply chain_last, delete_expense_within
  | |- chain_within _ [(_, get_auth_user _)] =>
      apply chain_last, get_auth_user_within
  | |- chain_within _ [(_, post_expense_ai _ _)] =>
      apply chain_last, post_expense_ai_within
  | |- chain_within _ [(_, get_expenses_filtered _ _)] =>
      apply chain_last, get_expenses_filtered_within
  | |- chain_within _ [(_, get_expense _)] =>
      apply chain_last, get_expense_within
  | |- chain_within _ [(_, patch_expense _)] =>
      apply chain_last, patch_expense_within
  end.

Ltac each_chain :=
  repeat (apply Forall_cons;
          [cbn [rt_chain]; eapply chain_within_mono; [| chain]; codes |]);
  apply Forall_nil.

Lemma setupAuth_within :
  Forall (fun rt => chain_within [200; 400; 401; 404; 500] (rt_chain rt)) (setupAuth env).
Proof. unfold setupAuth. each_chain. Qed.

Lemma registerRoutes_within :
  Forall (fun rt => chain_within [200; 401; 404; 500] (rt_chain rt))
         (registerRoutes env storage).
Proof. unfold registerRoutes. each_chain. Qed.

Ltac handler_within :=
  first [ apply register_within | apply login_within | apply auth_user_within
        | apply logout_within | apply post_expense_upload_within
        | apply get_expenses_plain_within | apply put_expense_within
        | apply delete_expense_within | apply get_auth_user_within
        | apply post_expense_ai_within | apply get_expenses_filtered_within
        | apply get_expense_within | apply patch_expense_within ].

Lemma app_within :
  Forall (fun rt => chain_within [200; 400; 401; 404; 500] (rt_chain rt))
         (app env storage).
Proof.
  unfold app. apply Forall_app. split; [apply setupAuth_within |].
  apply Forall_impl with (2 := registerRoutes_within).
  intros rt. apply chain_within_mono. codes.
Qed.

Lemma app_answers :
  Forall (fun rt => always_answers (rt_chain rt)) (app env storage).
Proof.
  apply Forall_impl with (2 := app_within).
  intros rt. apply chain_within_answers.
Qed.

(** *** Selection *)

Lemma dispatch_none (pre l : list Route) (req : Request) (w : World) :
  existsb (fun rt => route_matches rt req) pre = false ->
  dispatch (pre ++ l) req w = dispatch l req w.
Proof.
  induction pre as [| rt pre IH]; cbn [existsb List.app]; [reflexivity |].
  intros H. apply orb_false_elim in H as [H1 H2].
  rewrite dispatch_skip by exact H1. now apply IH.
Qed.

Lemma dispatch_some (pre l l' : list Route) (req : Request) (w : World) :
  Forall (fun rt => always_answers (rt_chain rt)) pre ->
  existsb (fun rt => route_matches rt req) pre = true ->
  dispatch (pre ++ l) req w = dispatch (pre ++ l') req w.
Proof.
  induction 1 as [| rt pre A F IH]; cbn [existsb List.app]; [discriminate |].
  intros H. destruct (route_matches rt req) eqn:M.
  - unfold route_matches in M. apply andb_prop in M as [Mm Mp].
    destruct (match_path (rt_pattern rt) (req_path req)) as [ps |] eqn:P;
      [| discriminate].
    rewrite !(dispatch_hit _ _ _ _ ps Mm P).
    destruct (A (set_params ps req) w) as (r & w' & ->). reflexivity.
  - rewrite !dispatch_skip by exact M. apply IH. exact H.
Qed.

Lemma method_eqb_eq (a b : Method) : method_eqb a b = true -> a = b.
Proof. now destruct a, b. Qed.

Lemma pattern_eqb_matches (p q : list Seg) (path : list string) :
  pattern_eqb p q = true ->
  match match_path p path with Some _ => true | None => false end
  = match match_path q path with Some _ => true | None => false end.
Proof.
  revert q path. induction p as [| [s | n] p IH]; intros [| [t | m] q] path;
    cbn [pattern_eqb]; try discriminate; intros E.
  - reflexivity.
  - apply andb_prop in E as [E1 E2]. apply String.eqb_eq in E1. subst t.
    destruct path as [| x path]; cbn [match_path]; [reflexivity |].
    destruct (String.eqb s x); [now apply IH | reflexivity].
  - destruct path as [| x path]; cbn [match_path]; [reflexivity |].
    assert (I := IH q path E).
    destruct (match_path p path), (match_path q path);
      (reflexivity || discriminate).
Qed.

Lemma same_place_matches (a b : Route) (req : Request) :
  same_place a b = true -> route_matches a req = route_matches b req.
Proof.
  unfold same_place, route_matches. intros E.
  apply andb_prop in E as [E1 E2]. apply method_eqb_eq in E1. rewrite E1.
  now rewrite (pattern_eqb_matches _ _ (req_path req) E2).
Qed.

Lemma dispatch_drop (pre post : list Route) (rt : Route) (req : Request) (w : World) :
  Forall (fun rt => always_answers (rt_chain rt)) pre ->
  existsb (same_place rt) pre = true ->
  dispatch (pre ++ rt :: post) req w = dispatch (pre ++ post) req w.
Proof.
  intros F S.
  destruct (existsb (fun a => route_matches a req) pre) eqn:E.
  - now apply dispatch_some.
  - rewrite !dispatch_none by exact E.
    apply dispatch_skip. change (route_matches rt req = false).
    apply existsb_exists in S as (a & I & S).
    rewrite (same_place_matches _ _ req S).
    now apply (existsb_false_all _ _ _ E).
Qed.

(** A route registered with the method and path of an earlier one is never
    run, when the chains before it answer. *)
Lemma first_registrations_serve (routes seen : list Route) (req : Request) (w : World) :
  Forall (fun rt => always_answers (rt_chain rt)) routes ->
  Forall (fun rt => always_answers (rt_chain rt)) seen ->
  dispatch (seen ++ routes) req w
  = dispatch (seen ++ first_registrations seen routes) req w.
Proof.
  intros Fr. revert seen.
  induction Fr as [| rt routes A Fr IH]; intros seen Fs; cbn [first_registrations];
    [reflexivity |].
  destruct (existsb (same_place rt) seen) eqn:E.
  - rewrite dispatch_drop by assumption. now apply IH.
  - assert (Fs' : Forall (fun rt => always_answers (rt_chain rt)) (seen ++ [rt])%list)
      by (apply Forall_app; split; [exact Fs | now constructor]).
    assert (IH' := IH (seen ++ [rt])%list Fs').
    rewrite <- !app_assoc in IH'. exact IH'.
Qed.

Lemma liveRoutes_first_registrations :
  first_registrations [] (app env storage) = liveRoutes env storage.
Proof.
  unfold app, liveRoutes, setupAuth, registerRoutes. cbn [List.app].
  cbv beta iota zeta delta
    [first_registrations existsb same_place method_eqb pattern_eqb rt_method
     rt_pattern String.eqb Ascii.eqb Bool.eqb andb orb List.app].
  reflexivity.
Qed.

(** X13. The registrations of [routes.ts] that repeat a method and path
    registered before them ([GET /api/auth/user], [POST] and
    [GET /api/expenses], [DELETE /api/expenses/:id]) are never run: the
    server answers every request as the table without them does. *)
Theorem repeated_routes_never_run (req : Request) (w : World) :
  serve env storage req w = dispatch (liveRoutes env storage) req w.
Proof.
  unfold serve. rewrite <- liveRoutes_first_registrations.
  apply (first_registrations_serve (app env storage) [] req w app_answers).
  constructor.
Qed.

(** X15. Every route [routes.ts] registers under [/api/expenses], and its
    [GET /api/auth/user], has [isAuthenticated] as the first handler of its
    chain: run on a request that fails the checks of the guard, the chain
    answers 401 and enters neither multer nor the handler; the world gains
    the log entry of the guard and nothing else. *)
Theorem expense_routes_are_guarded (rt : Route) (req : Request) (w : World) :
  In rt (registerRoutes env storage) ->
  AuthFailure env req w ->
  exists m, run_chain (rt_chain rt) req w
            = (inl (respond 401 (message m)), entered "isAuthenticated" w).
Proof.
  intros I F. unfold registerRoutes in I. cbn [In] in I.
  repeat (destruct I as [<- | I]; [cbn [rt_chain]; now apply guard_rejects |]).
  destruct I.
Qed.

(** *** Who an expense is created for *)

Lemma obj_set_twice (o : JsObj) (k : string) (v v' : JsVal) :
  obj_set (obj_set o k v) k v' = obj_set o k v'.
Proof.
  induction o as [| [k0 v0] o IH]; cbn [obj_set].
  - now rewrite String.eqb_refl.
  - destruct (String.eqb k0 k) eqn:E; cbn [obj_set].
    + now rewrite String.eqb_refl.
    + now rewrite E, IH.
Qed.

(** X16. Both handlers of [POST /api/expenses] overwrite a [userId] the
    client puts in the body with the id they read from the request: a
    request with such a property is handled exactly as the request
    without it. *)
Theorem creation_ignores_body_userId (req : Request) (v : JsVal) (w : World) :
  post_expense_upload env storage
    (set_body (obj_set (req_body req) "userId" v) req) w
  = post_expense_upload env storage req w
  /\ post_expense_ai env storage
       (set_body (obj_set (req_body req) "userId" v) req) w
     = post_expense_ai env storage req w.
Proof.
  split.
  - unfold post_expense_upload, user_userId, receipt_url.
    cbn [set_body req_user req_body req_file]. run.
    destruct (req_user req) as [u |]; [| reflexivity].
    rewrite !obj_set_twice, !obj_get_set_other by discriminate. reflexivity.
  - unfold post_expense_ai, user_userId.
    cbn [set_body req_user req_body req_file]. run.
    destruct (req_user req) as [u |]; [| reflexivity].
    rewrite !obj_set_twice. reflexivity.
Qed.

(** *** The receipt search *)

(** X17. The receipt search always answers, 200 or 500, and every item it
    lists has a receipt (a [receiptUrl] that is not null and not empty)
    and no [userId] property: the owner's id is not part of the answer. *)
Theorem search_receipts_lists_receipts (req : Request) (w : World) :
  exists r w',
    search_receipts env storage req w = (Ok (Send r), w')
    /\ In (status r) [200; 500]
    /\ Forall (fun o => truthy (js_get o "receiptUrl") = true
                        /\ js_get o "userId" = JUndefined) (items_of r).
Proof.
  assert (L : forall l,
             Forall (fun o => truthy (js_get o "receiptUrl") = true
                              /\ js_get o "userId" = JUndefined)
                    (map (receipt_of) (filter has_receipt l))).
  { intros l. apply Forall_forall. intros o I.
    apply in_map_iff in I as (e & <- & I). apply filter_In in I as [_ I].
    split; [exact I | reflexivity]. }
  unfold search_receipts, user_userId, receipt_filters. run.
  destruct (req_user req) as [u |].
  - destruct (truthy (obj_get (req_query req) "tags")).
    + destruct (obj_get (req_query req) "tags");
        try (do 2 eexists; split; [reflexivity |]; cbn; auto 10).
      destruct (getExpenses storage _ _ w) as [[l | err] w'];
        do 2 eexists; (split; [reflexivity |]); cbn [status json respond items_of body];
        (split; [cbn; auto |]); (apply L || constructor).
    + destruct (getExpenses storage _ _ w) as [[l | err] w'];
        do 2 eexists; (split; [reflexivity |]); cbn [status json respond items_of body];
        (split; [cbn; auto |]); (apply L || constructor).
  - do 2 eexists; split; [reflexivity |]; cbn; auto 10.
Qed.

Lemma search_receipts_within :
  answers_within [200; 500] (search_receipts env storage).
Proof.
  intros req w. unfold search_receipts, user_userId, receipt_filters. run.
  destruct (req_user req) as [u |]; [| settle].
  destruct (truthy (obj_get (req_query req) "tags")).
  - destruct (obj_get (req_query req) "tags"); try settle.
    destruct (getExpenses storage _ _ w) as [[l | err] w']; settle.
  - destruct (getExpenses storage _ _ w) as [[l | err] w']; settle.
Qed.

Lemma answers_within_mono (codes codes' : list Z) (h : Handler) :
  incl codes codes' -> answers_within codes h -> answers_within codes' h.
Proof.
  intros I A req w. destruct (A req w) as (r & w' & E & J).
  exists r, w'. split; [exact E | now apply I].
Qed.

(** X12. Every handler of [localAuth.ts], of the expense routes and of
    the receipt search answers every request itself, whatever the
    request, the world, the token library, the schema, the AI service and
    the data layer do: none calls [next()] and none lets an exception out
    to the error middleware of [index.ts].  Registration answers 200, 400
    or 500; login 200, 400, 401 or 500; the current user 200, 404 or 500;
    logout 200; the handlers of [routes.ts] 200, 404 or 500, never 400.
    The guard lets no exception out either. *)
Theorem handlers_always_answer :
  answers_within [200; 400; 500] (register env)
  /\ answers_within [200; 400; 401; 500] (login env)
  /\ answers_within [200; 404; 500] auth_user
  /\ answers_within [200] logout
  /\ Forall (answers_within [200; 404; 500])
            (resource_handlers env storage ++ [search_receipts env storage])
  /\ never_throws (isAuthenticated env).
Proof.
  repeat split;
    [ apply register_within | apply login_within
    | apply answers_within_mono with (2 := auth_user_within); codes
    | apply logout_within | | apply isAuthenticated_never_throws ].
  unfold resource_handlers. cbn [List.app].
  repeat (apply Forall_cons;
          [ eapply answers_within_mono;
            [| first [handler_within | apply search_receipts_within]]; codes |]).
  apply Forall_nil.
Qed.

Lemma put_if_other (k k' : string) (v : JsVal) (f : JsVal -> JsVal) (o : JsObj) :
  k <> k' -> obj_get (put_if k v f o) k' = obj_get o k'.
Proof.
  intros N. unfold put_if. destruct (truthy v); [| reflexivity].
  now apply obj_get_set_other.
Qed.

(** X18. The filter object of the receipt search is scoped by the server:
    its [userId] is the id the handler read from the request, whatever
    the query string carries, and it has no property besides [userId],
    [search], [category], [startDate], [endDate] and [tags]; building it
    touches nothing. *)
Theorem receipt_filters_scoped (userId : JsVal) (q filters : JsObj) (w w' : World) :
  receipt_filters env userId q w = (Ok filters, w') ->
  w' = w
  /\ obj_get filters "userId" = userId
  /\ (forall k, ~ In k ["userId"; "search"; "category"; "startDate"; "endDate"; "tags"] ->
                obj_get filters k = JUndefined).
Proof.
  unfold receipt_filters. run. intros E.
  assert (U : forall o, obj_get (put_if "endDate" (obj_get q "dateTo") (newDate env)
                (put_if "startDate" (obj_get q "dateFrom") (newDate env)
                   (put_if "category" (obj_get q "category") (fun v => v)
                      (put_if "search" (obj_get q "query") (fun v => v) o)))) "userId"
                        = obj_get o "userId")
    by (intros o; now rewrite !put_if_other by discriminate).
  assert (K : forall k o,
             ~ In k ["userId"; "search"; "category"; "startDate"; "endDate"; "tags"] ->
             obj_get (put_if "endDate" (obj_get q "dateTo") (newDate env)
                (put_if "startDate" (obj_get q "dateFrom") (newDate env)
                   (put_if "category" (obj_get q "category") (fun v => v)
                      (put_if "search" (obj_get q "query") (fun v => v) o)))) k
             = obj_get o k).
  { intros k o N. cbn [In] in N.
    now rewrite !put_if_other by (intros Q; subst k; intuition congruence). }
  destruct (truthy (obj_get q "tags")).
  - destruct (obj_get q "tags"); try discriminate.
    inversion E; subst. split; [reflexivity |]. split.
    + rewrite obj_get_set_other by discriminate. now rewrite U.
    + intros k N. assert (N' := N). cbn [In] in N'.
      rewrite obj_get_set_other by (intros Q; subst k; intuition congruence). rewrite (K k _ N).
      cbn [obj_get]. destruct (String.eqb "userId" k) eqn:Q; [| reflexivity].
      apply String.eqb_eq in Q. intuition congruence.
  - inversion E; subst. split; [reflexivity |]. split.
    + now rewrite U.
    + intros k N. assert (N' := N). cbn [In] in N'. rewrite (K k _ N).
      cbn [obj_get]. destruct (String.eqb "userId" k) eqn:Q; [| reflexivity].
      apply String.eqb_eq in Q. intuition congruence.
Qed.

(** X19. A [tags] parameter that is given but is not a string (repeated
    in the query string, so an array, or written with brackets, so an
    object) makes the receipt search and the second list handler answer
    500 before the data layer is called. *)
Theorem tags_must_be_a_string (req : Request) (w : World) :
  truthy (obj_get (req_query req) "tags") = true ->
  (forall s, obj_get (req_query req) "tags" <> JStr s) ->
  search_receipts env storage req w
  = (Ok (Send (respond 500 (message "Failed to search receipts"))), w)
  /\ get_expenses_filtered env storage req w
     = (Ok (Send (respond 500 (message "Failed to fetch expenses"))), w).
Proof.
  intros T N. split.
  - unfold search_receipts, user_userId, receipt_filters. run.
    destruct (req_user req) as [u |]; [| reflexivity].
    rewrite T. destruct (obj_get (req_query req) "tags"); try reflexivity.
    now destruct (N s).
  - unfold get_expenses_filtered, user_userId, convert_tags. run.
    destruct (req_user req) as [u |]; [| reflexivity].
    rewrite !convert_date_other by discriminate.
    rewrite T. destruct (obj_get (req_query req) "tags"); try reflexivity.
    now destruct (N s).
Qed.

Lemma split_on_nonempty (sep : ascii) (s : string) : split_on sep s <> [].
Proof.
  destruct s as [| c s]; cbn [split_on]; [discriminate |].
  destruct (Ascii.eqb c sep); [discriminate |].
  destruct (split_on sep s); discriminate.
Qed.

Lemma join_split_on (sep : ascii) (s : string) : join sep (split_on sep s) = s.
Proof.
  induction s as [| c s IH]; cbn [split_on]; [reflexivity |].
  destruct (Ascii.eqb c sep) eqn:E.
  - apply Ascii.eqb_eq in E. subst c.
    destruct (split_on sep s) as [| x l] eqn:S; [now destruct (split_on_nonempty sep s) |].
    cbn [join String.append]. cbn [join] in IH. now rewrite IH.
  - destruct (split_on sep s) as [| x l] eqn:S; [now destruct (split_on_nonempty sep s) |].
    destruct l as [| y l]; cbn [join String.append] in *; now rewrite IH.
Qed.


End RouteTable.

(** ** The request log *)

Lemma length_shorten (line : JsString) : (length (shorten line) <= 80)%nat.
Proof.
  unfold shorten. destruct (80 <? length line)%nat eqn:E.
  - apply Nat.ltb_lt in E. rewrite length_app, length_firstn. cbn [length]. lia.
  - apply Nat.ltb_ge in E. exact E.
Qed.

Lemma firstn_shorten (line : JsString) : firstn 79 (shorten line) = firstn 79 line.
Proof.
  unfold shorten. destruct (80 <? length line)%nat eqn:E; [| reflexivity].
  apply Nat.ltb_lt in E.
  rewrite firstn_app, firstn_firstn, length_firstn.
  replace (79 - Nat.min 79 (length line))%nat with 0%nat by lia.
  cbn [firstn]. now rewrite app_nil_r.
Qed.

(** X21. A line of the request log has at most 80 UTF-16 code units,
    however long the path and the JSON text of the answer are; its first
    79 are those of the full line, in every case, and a line that was cut
    has exactly 80 and ends with the ellipsis. *)
Theorem logLine_bounded (method path statusCode duration : JsString)
        (captured : option JsString) :
  (length (logLine method path statusCode duration captured) <= 80)%nat
  /\ firstn 79 (logLine method path statusCode duration captured)
     = firstn 79 (fullLine method path statusCode duration captured)
  /\ (logLine method path statusCode duration captured
      = fullLine method path statusCode duration captured
      \/ (length (logLine method path statusCode duration captured) = 80%nat
          /\ nth_error (logLine method path statusCode duration captured) 79
             = Some ellipsis)).
Proof.
  unfold logLine. split; [apply length_shorten |]. split; [apply firstn_shorten |].
  unfold shorten.
  destruct (80 <? length (fullLine method path statusCode duration captured))%nat eqn:E;
    [right | now left].
  apply Nat.ltb_lt in E. split.
  - rewrite length_app, length_firstn. cbn [length]. lia.
  - rewrite nth_error_app2; rewrite length_firstn;
      replace (Nat.min 79 (length (fullLine method path statusCode duration captured)))
        with 79%nat by lia; [| lia].
    now rewrite Nat.sub_diag.
Qed.

(** ** The properties above on the small deployment *)

Lemma register_creates_user_witness :
  fst (serve Demo.env Demo.storage (Demo.register_request "carol@example.com") Demo.world)
  = json (BJson (JObj
      [ ("message", JStr "User created successfully");
        ("token", JStr (jwt_sign Demo.env
                          [("userId", JStr (randomUUID Demo.env (S (seed Demo.world))))]
                          (JWT_SECRET Demo.env) "7d" (clock Demo.world)));
        ("user", JObj (public_user
                         (registered Demo.env "carol@example.com" "opensesame"
                                     "Alice" "Liddell" Demo.world))) ]))
  /\ users (snd (serve Demo.env Demo.storage
                       (Demo.register_request "carol@example.com") Demo.world))
     = (users Demo.world
        ++ [registered Demo.env "carol@example.com" "opensesame" "Alice" "Liddell"
                       Demo.world])%list
  /\ expenses (snd (serve Demo.env Demo.storage
                          (Demo.register_request "carol@example.com") Demo.world))
     = expenses Demo.world.
Proof.
  apply (register_creates_user Demo.env Demo.storage
           (Demo.register_request "carol@example.com") Demo.world
           "carol@example.com" "opensesame" "Alice" "Liddell");
    try reflexivity; discriminate.
Defined.

Lemma register_requires_fields_witness :
  serve Demo.env Demo.storage
        (Demo.request POST ["api"; "register"] None []
                      [("email", JStr "carol@example.com")])
        Demo.world
  = (respond 400 (message "All fields are required"), entered "register" Demo.world).
Proof.
  apply (register_requires_fields Demo.env Demo.storage
           (Demo.request POST ["api"; "register"] None []
                         [("email", JStr "carol@example.com")])
           Demo.world "password");
    try reflexivity.
  simpl. auto.
Defined.

Lemma register_keeps_users_ok_witness :
  users_ok (users (snd (serve Demo.env Demo.storage
                              (Demo.register_request "carol@example.com") Demo.world)))
  /\ expenses (snd (serve Demo.env Demo.storage
                          (Demo.register_request "carol@example.com") Demo.world))
     = expenses Demo.world.
Proof.
  apply (register_keeps_users_ok Demo.env Demo.storage
           (Demo.register_request "carol@example.com") Demo.world);
    try reflexivity.
  - intros k [<- | [<- | [<- | []]]] _; eexists; reflexivity.
  - repeat split; simpl; repeat constructor; simpl; intuition discriminate.
Defined.

Lemma register_then_login_witness :
  fst (serve Demo.env Demo.storage
             (Demo.login_request "carol@example.com" "opensesame")
             (snd (serve Demo.env Demo.storage
                         (Demo.register_request "carol@example.com") Demo.world)))
  = json (BJson (JObj
      [ ("message", JStr "Login successful");
        ("token", JStr (jwt_sign Demo.env
                          [("userId", JStr (randomUUID Demo.env (S (seed Demo.world))))]
                          (JWT_SECRET Demo.env) "7d" (clock Demo.world)));
        ("user", JObj (public_user
                         (registered Demo.env "carol@example.com" "opensesame"
                                     "Alice" "Liddell" Demo.world))) ])).
Proof.
  apply (register_then_login Demo.env Demo.storage
           (Demo.register_request "carol@example.com")
           (Demo.login_request "carol@example.com" "opensesame") Demo.world
           "carol@example.com" "opensesame" "Alice" "Liddell");
    try reflexivity; discriminate.
Defined.

Lemma login_succeeds_witness :
  serve Demo.env Demo.storage
        (Demo.login_request "alice@example.com" "wonderland") Demo.world
  = (json (BJson (JObj
       [ ("message", JStr "Login successful");
         ("token", JStr (jwt_sign Demo.env [("userId", JStr (u_id Demo.alice))]
                                  (JWT_SECRET Demo.env) "7d" (clock Demo.world)));
         ("user", JObj (public_user Demo.alice)) ])),
     entered "login" Demo.world).
Proof.
  apply (login_succeeds Demo.env Demo.storage
           (Demo.login_request "alice@example.com" "wonderland") Demo.world
           "wonderland" "hash:wonderland" Demo.alice []);
    try reflexivity.
  discriminate.
Defined.

Lemma accounts_never_answer_password_witness :
  exists v,
    body (fst (serve Demo.env Demo.storage Demo.whoami_request Demo.world)) = BJson v
    /\ mentions "password" v = false.
Proof.
  apply (accounts_never_answer_password Demo.env Demo.storage
           Demo.whoami_request Demo.world).
  right. right. split; reflexivity.
Defined.

Lemma login_null_hash_witness :
  serve Demo.env Demo.storage
        (Demo.login_request "guest@example.com" "anything") Demo.world_with_guest
  = (respond 500 (message "Internal server error"),
     entered "login" Demo.world_with_guest).
Proof.
  apply (login_null_hash Demo.env Demo.storage
           (Demo.login_request "guest@example.com" "anything") Demo.world_with_guest
           Demo.guest []);
    reflexivity.
Defined.

Lemma guard_messages_witness :
  isAuthenticated Demo.env Demo.anonymous_request Demo.world
  = (Ok (Send (respond 401 (message "No token provided"))), Demo.world)
  /\ isAuthenticated Demo.env Demo.stale_request Demo.world
     = (Ok (Send (respond 401 (message "Invalid token"))), Demo.world)
  /\ isAuthenticated Demo.env Demo.ghost_request Demo.world
     = (Ok (Send (respond 401 (message "User not found"))), Demo.world).
Proof.
  split; [| split].
  - apply (proj1 (guard_messages Demo.env Demo.anonymous_request Demo.world)).
    left. reflexivity.
  - apply (proj1 (proj2 (guard_messages Demo.env Demo.stale_request Demo.world))
             "Bearer stale");
      try reflexivity.
    intros payload. vm_compute. discriminate.
  - apply (proj2 (proj2 (guard_messages Demo.env Demo.ghost_request Demo.world))
             "Bearer tok:ghost" [("userId", JStr "ghost")]);
      reflexivity.
Defined.

Lemma guard_decides_on_header_witness :
  (exists x,
     isAuthenticated Demo.env Demo.whoami_request Demo.world = (Ok (Send x), Demo.world)
     /\ isAuthenticated Demo.env Demo.list_request Demo.world
        = (Ok (Send x), Demo.world))
  \/ (exists id row,
        isAuthenticated Demo.env Demo.whoami_request Demo.world
        = (Ok (Next (attach_identity id row Demo.whoami_request)), Demo.world)
        /\ isAuthenticated Demo.env Demo.list_request Demo.world
           = (Ok (Next (attach_identity id row Demo.list_request)), Demo.world)).
Proof.
  apply (guard_decides_on_header Demo.env Demo.whoami_request Demo.list_request
           Demo.world Demo.world);
    reflexivity.
Defined.

Lemma logout_keeps_token_valid_witness :
  fst (serve Demo.env Demo.storage Demo.logout_request Demo.world)
  = json (BJson (message "Logged out successfully"))
  /\ fst (serve Demo.env Demo.storage Demo.whoami_request
                (snd (serve Demo.env Demo.storage Demo.logout_request Demo.world)))
     = fst (serve Demo.env Demo.storage Demo.whoami_request Demo.world).
Proof.
  apply (logout_keeps_token_valid Demo.env Demo.storage
           Demo.logout_request Demo.whoami_request Demo.world);
    reflexivity.
Defined.

Lemma sessions_only_read_witness :
  users (snd (serve Demo.env Demo.storage
                    (Demo.login_request "alice@example.com" "wonderland") Demo.world))
  = users Demo.world
  /\ expenses (snd (serve Demo.env Demo.storage
                          (Demo.login_request "alice@example.com" "wonderland")
                          Demo.world))
     = expenses Demo.world.
Proof.
  apply (sessions_only_read Demo.env Demo.storage
           (Demo.login_request "alice@example.com" "wonderland") Demo.world).
  left. split; reflexivity.
Defined.

Lemma expense_routes_are_guarded_witness :
  exists m,
    run_chain [guard Demo.env; ("patch_expense", patch_expense Demo.storage)]
              Demo.anonymous_list_request Demo.world
    = (inl (respond 401 (message m)), entered "isAuthenticated" Demo.world).
Proof.
  apply (expense_routes_are_guarded Demo.env Demo.storage
           (mkRoute PATCH [Lit "api"; Lit "expenses"; Param "id"]
                    [guard Demo.env; ("patch_expense", patch_expense Demo.storage)])
           Demo.anonymous_list_request Demo.world).
  - simpl. auto 12.
  - apply NoHeader. reflexivity.
Defined.

Lemma receipt_filters_scoped_witness :
  Demo.world = Demo.world
  /\ obj_get [("userId", JStr "alice"); ("category", JStr "food")] "userId" = JStr "alice"
  /\ (forall k,
        ~ In k ["userId"; "search"; "category"; "startDate"; "endDate"; "tags"] ->
        obj_get [("userId", JStr "alice"); ("category", JStr "food")] k = JUndefined).
Proof.
  apply (receipt_filters_scoped Demo.env (JStr "alice")
           [("userId", JStr "bob"); ("category", JStr "food")]
           [("userId", JStr "alice"); ("category", JStr "food")]
           Demo.world Demo.world).
  reflexivity.
Defined.

Lemma tags_must_be_a_string_witness :
  search_receipts Demo.env Demo.storage Demo.repeated_tags_request Demo.world
  = (Ok (Send (respond 500 (message "Failed to search receipts"))), Demo.world)
  /\ get_expenses_filtered Demo.env Demo.storage Demo.repeated_tags_request Demo.world
     = (Ok (Send (respond 500 (message "Failed to fetch expenses"))), Demo.world).
Proof.
  apply (tags_must_be_a_string Demo.env Demo.storage Demo.repeated_tags_request
           Demo.world).
  - reflexivity.
  - intros s. vm_compute. discriminate.
Defined.


(** * Tokens *)

Lemma length_append (a b : string) :
  String.length (a ++ b) = (String.length a + String.length b)%nat.
Proof. induction a as [| c a IH]; cbn; [reflexivity | now rewrite IH]. Qed.

Lemma split_at_append (a b : string) :
  Token.split_at (String.length a) (a ++ b) = (a, b).
Proof.
  induction a as [| c a IH]; cbn [String.length append Token.split_at].
  - now destruct b.
  - now rewrite IH.
Qed.

Lemma mutation_of_length (s s' : string) :
  mutation_of s s' = true -> String.length s' = String.length s.
Proof.
  revert s'. induction s as [| a s IH]; intros [| b s']; cbn [mutation_of];
    try discriminate.
  destruct (Ascii.eqb a b).
  - intros E. cbn. f_equal. now apply IH.
  - intros E. apply String.eqb_eq in E. now subst.
Qed.

Lemma mutation_of_differs (s s' : string) : mutation_of s s' = true -> s <> s'.
Proof.
  revert s'. induction s as [| a s IH]; intros [| b s']; cbn [mutation_of];
    try discriminate.
  destruct (Ascii.eqb a b) eqn:A.
  - intros E N. injection N as _ N. now apply (IH s').
  - intros _ N. injection N as N _. subst. now rewrite Ascii.eqb_refl in A.
Qed.

(** A mutation of a text followed by a signature changes the text or the
    signature, and leaves the other as it is. *)
Lemma mutation_of_append (a b s' : string) :
  mutation_of (a ++ b) s' = true ->
  exists a' b',
    s' = a' ++ b'
    /\ String.length a' = String.length a
    /\ ((a' = a /\ mutation_of b b' = true) \/ (mutation_of a a' = true /\ b' = b)).
Proof.
  revert s'. induction a as [| c a IH]; intros s'; cbn [append].
  - intros E. exists EmptyString, s'. repeat split. now left.
  - destruct s' as [| d s']; cbn [mutation_of]; [discriminate |].
    destruct (Ascii.eqb c d) eqn:A.
    + apply Ascii.eqb_eq in A. subst d. intros E.
      destruct (IH s' E) as (a' & b' & -> & L & [[-> M] | [M ->]]).
      * exists (String c a), b'. repeat split. now left.
      * exists (String c a'), b. repeat split; [cbn; now rewrite L |].
        right. split; [| reflexivity]. cbn [mutation_of]. now rewrite Ascii.eqb_refl.
    + intros E. apply String.eqb_eq in E. subst s'.
      exists (String d a), b. repeat split. right. split; [| reflexivity].
      cbn [mutation_of]. rewrite A. apply String.eqb_refl.
Qed.

Lemma cut_no_separator (sep : ascii) (d rest : string) :
  (forall n, get n d <> Some sep) ->
  Token.cut sep (d ++ String sep rest) = Some (d, rest).
Proof.
  induction d as [| c d IH]; intros N; cbn [append Token.cut].
  - now rewrite Ascii.eqb_refl.
  - destruct (Ascii.eqb c sep) eqn:E.
    + apply Ascii.eqb_eq in E. subst c. now destruct (N 0%nat).
    + rewrite IH; [reflexivity |]. intros n. apply (N (S n)).
Qed.

Lemma digits_have_no_dot (u : Decimal.uint) (n : nat) :
  get n (NilEmpty.string_of_uint u) <> Some "."%char.
Proof.
  revert n. induction u; intros [| n]; cbn [NilEmpty.string_of_uint get];
    try discriminate; apply IHu.
Qed.

Lemma decimal_has_no_dot (z : Z) (n : nat) : get n (Token.decimal z) <> Some "."%char.
Proof.
  unfold Token.decimal, NilZero.string_of_int, NilZero.string_of_uint.
  destruct (Z.to_int z) as [u | u].
  - destruct u; try apply digits_have_no_dot. destruct n as [| [| n]]; discriminate.
  - destruct n as [| n]; cbn [get]; [discriminate |].
    destruct u; try apply digits_have_no_dot. destruct n as [| [| n]]; discriminate.
Qed.

Lemma of_decimal_decimal (z : Z) : Token.of_decimal (Token.decimal z) = Some z.
Proof.
  unfold Token.of_decimal, Token.decimal.
  rewrite NilZero.isi.
  - cbn [option_map]. now rewrite DecimalZ.of_to.
  - destruct z; cbn; try discriminate.
    intros E. injection E as E. now apply Unsigned.to_uint_nonnil in E.
  - destruct z; cbn; try discriminate.
    intros E. injection E as E. now apply Unsigned.to_uint_nonnil in E.
Qed.

Section Tokens.

Variable env : Env.
Variable mac : string -> string -> string.
Variable taglen : nat.

Hypothesis library_sign : jwt_sign env = Token.sign mac.
Hypothesis library_verify : jwt_verify env = Token.verify mac taglen.
Hypothesis mac_length :
  forall text, String.length (mac (JWT_SECRET env) text) = taglen.
Hypothesis mac_separates :
  forall text text', mutation_of text text' = true ->
                     mac (JWT_SECRET env) text <> mac (JWT_SECRET env) text'.

(** What the service makes of a signed text followed by its signature. *)
Lemma verify_signed (userId : string) (exp t : Z) :
  Token.verify mac taglen
    (Token.claims userId exp ++ mac (JWT_SECRET env) (Token.claims userId exp))
    (JWT_SECRET env) t
  = if exp <=? Token.seconds t then TokenExpiredError
    else JwtOk [("userId", JStr userId); ("exp", JNum exp)].
Proof.
  unfold Token.verify. rewrite length_append, mac_length.
  replace (String.length (Token.claims userId exp) + taglen <? taglen)%nat with false
    by (symmetry; apply Nat.ltb_ge; lia).
  replace (String.length (Token.claims userId exp) + taglen - taglen)%nat
    with (String.length (Token.claims userId exp)) by lia.
  rewrite split_at_append, String.eqb_refl. cbn [negb].
  unfold Token.claims.
  rewrite (cut_no_separator "." _ _ (decimal_has_no_dot exp)).
  now rewrite of_decimal_decimal.
Qed.

(** A mutated token does not verify, at any time. *)
Lemma verify_mutated (text token' : string) (t : Z) :
  mutation_of (text ++ mac (JWT_SECRET env) text) token' = true ->
  exists reason,
    Token.verify mac taglen token' (JWT_SECRET env) t = JsonWebTokenError reason.
Proof.
  intros M.
  destruct (mutation_of_append _ _ _ M) as (a' & b' & -> & L & C).
  unfold Token.verify. rewrite length_append.
  assert (Lb : String.length b' = taglen).
  { destruct C as [[_ Mb] | [_ ->]]; [| apply mac_length].
    rewrite (mutation_of_length _ _ Mb). apply mac_length. }
  rewrite Lb.
  replace (String.length a' + taglen <? taglen)%nat with false
    by (symmetry; apply Nat.ltb_ge; lia).
  replace (String.length a' + taglen - taglen)%nat with (String.length a') by lia.
  rewrite split_at_append.
  assert (N : String.eqb b' (mac (JWT_SECRET env) a') = false).
  { apply String.eqb_neq. destruct C as [[-> Mb] | [Ma ->]].
    - intros E. apply (mutation_of_differs _ _ Mb). now symmetry.
    - now apply mac_separates. }
  rewrite N. cbn [negb]. now eexists.
Qed.


End Tokens.

(** The token service of the small deployment. *)
Lemma checksum_range (s : string) : 0 <= Demo.checksum s < 256.
Proof.
  destruct s as [| c s]; cbn [Demo.checksum]; [lia |].
  apply Z.mod_pos_bound. lia.
Qed.

Lemma checksum_mutation (s s' : string) :
  mutation_of s s' = true -> Demo.checksum s <> Demo.checksum s'.
Proof.
  revert s'. induction s as [| a s IH]; intros [| b s']; cbn [mutation_of];
    try discriminate.
  cbn [Demo.checksum]. destruct (Ascii.eqb a b) eqn:A.
  - apply Ascii.eqb_eq in A. subst b. intros M E. apply (IH s' M).
    pose proof (checksum_range s). pose proof (checksum_range s').
    Z.div_mod_to_equations. lia.
  - intros M E. apply String.eqb_eq in M. subst s'.
    apply Ascii.eqb_neq in A. apply A.
    rewrite <- (ascii_nat_embedding a), <- (ascii_nat_embedding b). f_equal.
    pose proof (nat_ascii_bounded a). pose proof (nat_ascii_bounded b).
    Z.div_mod_to_equations. lia.
Qed.

Lemma mutation_of_prefix (k s s' : string) :
  mutation_of (k ++ s) (k ++ s') = mutation_of s s'.
Proof.
  induction k as [| c k IH]; cbn [append mutation_of]; [reflexivity |].
  now rewrite Ascii.eqb_refl.
Qed.

Lemma demo_mac_separates (key text text' : string) :
  mutation_of text text' = true -> Demo.mac key text <> Demo.mac key text'.
Proof.
  intros M E. unfold Demo.mac in E. injection E as E.
  apply (checksum_mutation (key ++ text) (key ++ text')).
  - now rewrite mutation_of_prefix.
  - pose proof (checksum_range (key ++ text)).
    pose proof (checksum_range (key ++ text')).
    apply (f_equal nat_of_ascii) in E.
    rewrite !nat_ascii_embedding in E by lia. lia.
Qed.


(** The token Alice is issued in the small deployment: a second before
    it expires, as it expires, with its signature changed, and with its
    user id changed. *)
Example alice_token :
  fst (issue_token Demo.token_env Demo.alice Demo.world)
  = Ok ("604801.alice" ++ Demo.mac "secret" "604801.alice")
  /\ Token.verify Demo.mac 1 ("604801.alice" ++ Demo.mac "secret" "604801.alice")
                  "secret" 604800999
     = JwtOk [("userId", JStr "alice"); ("exp", JNum 604801)]
  /\ Token.verify Demo.mac 1 ("604801.alice" ++ Demo.mac "secret" "604801.alice")
                  "secret" 604801000
     = TokenExpiredError
  /\ Token.verify Demo.mac 1 "604801.alice!" "secret" 1000
     = JsonWebTokenError "invalid signature"
  /\ Token.verify Demo.mac 1 ("604801.blice" ++ Demo.mac "secret" "604801.alice")
                  "secret" 1000
     = JsonWebTokenError "invalid signature".
Proof. repeat split. Qed.

(** * Login and the kind of the password *)

Section PasswordKinds.

Variable env : Env.
Variable storage : IStorage.

(** A password that is given but is not a string: [bcrypt.compare] raises
    on it, and it is called only once a user record is found. *)
Lemma login_password_not_text (req : Request) (w : World) :
  req_method req = POST ->
  req_path req = ["api"; "login"] ->
  truthy (obj_get (req_body req) "email") = true ->
  truthy (obj_get (req_body req) "password") = true ->
  (forall s, obj_get (req_body req) "password" <> JStr s) ->
  fst (serve env storage req w)
  = match filter (users_email_eq (obj_get (req_body req) "email")) (users w) with
    | [] => respond 401 (message "Invalid credentials")
    | _ :: _ => respond 500 (message "Internal server error")
    end.
Proof.
  intros Hm Hp E P N. route Hm Hp. cbn [run_chain]. unfold login. run.
  autorewrite with proj. rewrite E, P. cbn [negb orb]. autorewrite with proj.
  destruct (filter (users_email_eq (obj_get (req_body req) "email")) (users w))
    as [| row more]; cbn [firstn]; [reflexivity |].
  destruct (obj_get (req_body req) "password"); cbn [as_string]; try reflexivity.
  now destruct (N s).
Qed.

End PasswordKinds.

(** C6, at a failing input: two failed logins with the JSON number [1] as
    the password, the first with an email no user record has, the second
    with Alice's.  The first is answered 401 [Invalid credentials], the
    second 500 [Internal server error]: the answers differ in status and
    in message, and tell whether the email is known. *)
Theorem login_enumerates_by_password_kind :
  filter (users_email_eq (JStr "nobody@example.com")) (users Demo.world) = []
  /\ In Demo.alice (users Demo.world)
  /\ u_email Demo.alice = Some "alice@example.com"
  /\ serve Demo.env Demo.storage
           (Demo.login_attempt "nobody@example.com" (JNum 1)) Demo.world
     = (respond 401 (message "Invalid credentials"), entered "login" Demo.world)
  /\ serve Demo.env Demo.storage
           (Demo.login_attempt "alice@example.com" (JNum 1)) Demo.world
     = (respond 500 (message "Internal server error"), entered "login" Demo.world).
Proof. repeat split. simpl. auto. Qed.

